(** * PREVxREAL: credential resolver and budget report fetcher

    A shallow embedding of [credenciais.py] (class [Config]) and of
    [teste.py] (function [listar_orcamentos] and the block run by the
    button [Buscar dados]).

    The process environment is a finite map from variable names to
    values.  Every observable effect of the Python code (logging calls,
    Streamlit banners, [time.sleep], [requests.post]) is recorded, in
    program order, in a trace of events; an exception that is not
    caught ends the computation with [Raise].  The HTTP server is an
    oracle that gives, for each attempt number, what [requests.post]
    produces on that attempt. *)

From Stdlib Require Import ZArith Ascii String List SpecFloat.
From stdpp Require Import gmap strings list pretty.

Open Scope Z_scope.
Set Warnings "-register-all".

(** ** Python primitives used by the two source files *)

Module Py.

(** Strings are byte strings; this [upper] is [str.upper] on ASCII
    text: the letters a-z are upper-cased and every other byte is left as
    it is.  Module [Platform] below has the resolvers for any text, with
    [str.upper] as a parameter. *)
Definition upper_char (c : ascii) : ascii :=
  let n := nat_of_ascii c in
  if (97 <=? n)%nat && (n <=? 122)%nat then ascii_of_nat (n - 32) else c.

Fixpoint upper (s : string) : string :=
  match s with
  | EmptyString => EmptyString
  | String c s' => String (upper_char c) (upper s')
  end.

(** [needle in hay] on two strings: [needle] occurs as a substring. *)
Fixpoint str_contains (needle hay : string) : bool :=
  String.prefix needle hay ||
  match hay with
  | EmptyString => false
  | String _ hay' => str_contains needle hay'
  end.

Fixpoint zeros (n : nat) : string :=
  match n with
  | O => EmptyString
  | S n' => String "0"%char (zeros n')
  end.

(** [s.zfill(width)]: pad with zeros on the left, after a leading sign. *)
Definition zfill (width : nat) (s : string) : string :=
  let fill := zeros (width - String.length s) in
  match s with
  | String c rest =>
      if Ascii.eqb c "+"%char || Ascii.eqb c "-"%char
      then String c (fill +:+ rest)
      else fill +:+ s
  | EmptyString => fill
  end.

(** [str(n)] for an [int]. *)
Definition str_int (n : Z) : string := pretty n.

(** Truth value of an optional string: [None] and [''] are false. *)
Definition truthy_opt_str (v : option string) : bool :=
  match v with
  | Some s => negb (String.eqb s "")
  | None => false
  end.

Inductive exn : Type :=
  | ValidationError (fields : list string)
  | TypeError
  | KeyError
  | AttributeError
  | NotImplementedError
  | JSONDecodeError
  | RequestException
  | UnicodeEncodeError.

Definition is_ValidationError (e : exn) : bool :=
  match e with ValidationError _ => true | _ => false end.

Definition exn_text (e : exn) : string :=
  match e with
  | ValidationError fields => "validation error: " +:+ String.concat ", " fields
  | TypeError => "TypeError"
  | KeyError => "KeyError"
  | AttributeError => "AttributeError"
  | NotImplementedError => "NotImplementedError"
  | JSONDecodeError => "JSONDecodeError"
  | RequestException => "RequestException"
  | UnicodeEncodeError => "UnicodeEncodeError"
  end.

Inductive outcome (A : Type) : Type :=
  | Return (a : A)
  | Raise (e : exn).
Arguments Return {A} a.
Arguments Raise {A} e.

End Py.
Export Py.

(** ** Effects: a trace of events and an outcome *)

Record Payload : Type := mkPayload {
  call : string;
  nAno : Z;
  nMes : Z;
  app_key_sent : string;
  app_secret_sent : string
}.

Inductive event : Type :=
  | LogWarning (msg : string)
  | LogError (msg : string)
  | StWarning (msg : string)
  | StError (msg : string)
  | Sleep (seconds : Z)
  | Post (url : string) (payload : Payload).

Definition M (A : Type) : Type := (list event * outcome A)%type.

Definition ret {A} (a : A) : M A := ([], Return a).

Definition raise {A} (e : exn) : M A := ([], Raise e).

Definition emit (ev : event) : M unit := ([ev], Return tt).

Definition lift {A} (o : outcome A) : M A := ([], o).

Definition bind {A B} (m : M A) (k : A -> M B) : M B :=
  match m with
  | (t1, Return a) => let '(t2, r) := k a in (t1 ++ t2, r)
  | (t1, Raise e) => (t1, Raise e)
  end.

(** [try: body except ValidationError as exc: handler exc]. *)
Definition try_except_ValidationError {A} (body : M A) (handler : exn -> M A)
  : M A :=
  match body with
  | (t1, Raise e) =>
      if is_ValidationError e
      then let '(t2, r) := handler e in (t1 ++ t2, r)
      else (t1, Raise e)
  | done => done
  end.

Notation "'let*' x ':=' m 'in' k" := (bind m (fun x => k))
  (at level 10, x name, m at level 100, k at level 200).
Notation "m >> k" := (bind m (fun _ => k))
  (at level 90, right associativity).

Definition trace {A} (m : M A) : list event := fst m.
Definition result {A} (m : M A) : outcome A := snd m.

(** ** credenciais.py *)

Module Credenciais.

Record EmailConfig : Type := mkEmailConfig {
  email : string;
  senha : string
}.

Record AppKeysConfig : Type := mkAppKeysConfig {
  app_key : string;
  app_secret : string
}.

(** A [str] field declared with [Field(..., min_length=1)]: the value
    must be a string (not [None]) of length at least 1. *)
Definition field_min_length_1 (name : string) (v : option string)
  : list string :=
  match v with
  | Some s => if (1 <=? String.length s)%nat then [] else [name]
  | None => [name]
  end.

(** The constructor [AppKeysConfig(app_key=..., app_secret=...)]:
    pydantic validates both fields and raises [ValidationError] naming
    the fields that fail. *)
Definition new_AppKeysConfig (k s : option string) : M AppKeysConfig :=
  match field_min_length_1 "app_key" k ++ field_min_length_1 "app_secret" s,
        k, s with
  | [], Some k', Some s' => ret (mkAppKeysConfig k' s')
  | bad, _, _ => raise (ValidationError bad)
  end.

Section Config.

(** The [EmailStr] check is the [email_validator] package's; it is a
    parameter of the resolver. *)
Variable email_str_ok : string -> bool.

Definition field_EmailStr (name : string) (v : option string) : list string :=
  match v with
  | Some s => if email_str_ok s then [] else [name]
  | None => [name]
  end.

Definition new_EmailConfig (e s : option string) : M EmailConfig :=
  match field_EmailStr "email" e ++ field_min_length_1 "senha" s, e, s with
  | [], Some e', Some s' => ret (mkEmailConfig e' s')
  | bad, _, _ => raise (ValidationError bad)
  end.

Definition get_email_config (environ : gmap string string)
    (localidade servico : string) : M (option EmailConfig) :=
  let localidade := upper localidade in
  let servico := upper servico in
  let email_var := localidade +:+ "_" +:+ servico +:+ "_EMAIL" in
  let senha_var := localidade +:+ "_" +:+ servico +:+ "_SENHA" in
  let email := environ !! email_var in
  let senha := environ !! senha_var in
  if negb (truthy_opt_str email) || negb (truthy_opt_str senha) then
    emit (LogWarning ("Variáveis de ambiente " +:+ email_var +:+ " ou "
                      +:+ senha_var +:+ " não configuradas.")) >>
    ret None
  else
    try_except_ValidationError
      (let* c := new_EmailConfig email senha in ret (Some c))
      (fun exc =>
         emit (LogError ("Validação falhou para " +:+ localidade +:+ "_"
                         +:+ servico +:+ ": " +:+ exn_text exc)) >>
         ret None).

End Config.

Definition get_app_keys (environ : gmap string string)
    (localidade servico : string) : M (option AppKeysConfig) :=
  let localidade := upper localidade in
  let servico := upper servico in
  let app_key_var := localidade +:+ "_" +:+ servico +:+ "_APP_KEY" in
  let app_secret_var := localidade +:+ "_" +:+ servico +:+ "_APP_SECRET" in
  let app_key := environ !! app_key_var in
  let app_secret := environ !! app_secret_var in
  if negb (truthy_opt_str app_key) || negb (truthy_opt_str app_secret) then
    emit (LogWarning ("Variáveis de ambiente " +:+ app_key_var +:+ " ou "
                      +:+ app_secret_var +:+ " não configuradas.")) >>
    ret None
  else
    try_except_ValidationError
      (let* c := new_AppKeysConfig app_key app_secret in ret (Some c))
      (fun exc =>
         emit (LogError ("Validação falhou para " +:+ localidade +:+ "_"
                         +:+ servico +:+ ": " +:+ exn_text exc)) >>
         ret None).

End Credenciais.
Export Credenciais.

(** ** credenciais.py on any text and any platform *)

(** The two resolvers of locality and service again, with the three
    library functions they call as parameters, so that nothing is
    assumed on them: [str.upper] on Unicode text, the encoding of a
    variable name inside [os.getenv], and the [EmailStr] validation of
    pydantic, which gives back the normalised address. *)
Module Platform.

Section Resolvers.

(** [s.upper()] *)
Variable str_upper : string -> string.

(** Whether [os.getenv] can encode the name for the lookup; when it
    cannot it raises [UnicodeEncodeError]. *)
Variable fs_encodable : string -> bool.

(** The [EmailStr] validation: the normalised address, or [None] when
    it raises [ValidationError]. *)
Variable email_str : string -> option string.

(** [os.getenv(name)] *)
Definition os_getenv (environ : gmap string string) (name : string)
  : M (option string) :=
  if fs_encodable name then ret (environ !! name)
  else raise UnicodeEncodeError.

Definition field_EmailStr (name : string) (v : option string) : list string :=
  match v with
  | Some s => match email_str s with Some _ => [] | None => [name] end
  | None => [name]
  end.

(** The constructor [EmailConfig(email=..., senha=...)]: the record
    holds the address as normalised by the validation. *)
Definition new_EmailConfig (e s : option string) : M EmailConfig :=
  match field_EmailStr "email" e ++ field_min_length_1 "senha" s,
        e ≫= email_str, s with
  | [], Some e', Some s' => ret (mkEmailConfig e' s')
  | bad, _, _ => raise (ValidationError bad)
  end.

Definition get_email_config (environ : gmap string string)
    (localidade servico : string) : M (option EmailConfig) :=
  let localidade := str_upper localidade in
  let servico := str_upper servico in
  let email_var := localidade +:+ "_" +:+ servico +:+ "_EMAIL" in
  let senha_var := localidade +:+ "_" +:+ servico +:+ "_SENHA" in
  let* email := os_getenv environ email_var in
  let* senha := os_getenv environ senha_var in
  if negb (truthy_opt_str email) || negb (truthy_opt_str senha) then
    emit (LogWarning ("Variáveis de ambiente " +:+ email_var +:+ " ou "
                      +:+ senha_var +:+ " não configuradas.")) >>
    ret None
  else
    try_except_ValidationError
      (let* c := new_EmailConfig email senha in ret (Some c))
      (fun exc =>
         emit (LogError ("Validação falhou para " +:+ localidade +:+ "_"
                         +:+ servico +:+ ": " +:+ exn_text exc)) >>
         ret None).

Definition get_app_keys (environ : gmap string string)
    (localidade servico : string) : M (option AppKeysConfig) :=
  let localidade := str_upper localidade in
  let servico := str_upper servico in
  let app_key_var := localidade +:+ "_" +:+ servico +:+ "_APP_KEY" in
  let app_secret_var := localidade +:+ "_" +:+ servico +:+ "_APP_SECRET" in
  let* app_key := os_getenv environ app_key_var in
  let* app_secret := os_getenv environ app_secret_var in
  if negb (truthy_opt_str app_key) || negb (truthy_opt_str app_secret) then
    emit (LogWarning ("Variáveis de ambiente " +:+ app_key_var +:+ " ou "
                      +:+ app_secret_var +:+ " não configuradas.")) >>
    ret None
  else
    try_except_ValidationError
      (let* c := new_AppKeysConfig app_key app_secret in ret (Some c))
      (fun exc =>
         emit (LogError ("Validação falhou para " +:+ localidade +:+ "_"
                         +:+ servico +:+ ": " +:+ exn_text exc)) >>
         ret None).

End Resolvers.

End Platform.

(** ** JSON values, as [response.json()] gives them to Python *)

Module Json.

(** A parsed object is the list of the items of the Python [dict], in
    insertion order; a number with a fraction or an exponent is a
    binary floating-point value. *)
Inductive json : Type :=
  | JNull
  | JBool (b : bool)
  | JInt (n : Z)
  | JFloat (x : spec_float)
  | JStr (s : string)
  | JArr (items : list json)
  | JObj (fields : list (string * json)).

Fixpoint dict_get (k : string) (d : list (string * json)) : option json :=
  match d with
  | [] => None
  | (k', v) :: d' => if String.eqb k' k then Some v else dict_get k d'
  end.

(** [bool(v)], as the [if lista:] test takes it. *)
Definition truthy (v : json) : bool :=
  match v with
  | JNull => false
  | JBool b => b
  | JInt n => negb (n =? 0)
  | JFloat x => match x with S754_zero _ => false | _ => true end
  | JStr s => negb (String.eqb s "")
  | JArr items => match items with [] => false | _ => true end
  | JObj fields => match fields with [] => false | _ => true end
  end.

Definition is_str (s : string) (v : json) : bool :=
  match v with JStr s' => String.eqb s' s | _ => false end.

(** [needle in container] for a string [needle]. *)
Definition py_in (needle : string) (container : json) : outcome bool :=
  match container with
  | JObj fields =>
      Return (match dict_get needle fields with Some _ => true | None => false end)
  | JArr items => Return (existsb (is_str needle) items)
  | JStr s => Return (str_contains needle s)
  | _ => Raise TypeError
  end.

(** [container[key]] for a string [key]. *)
Definition py_getitem (container : json) (key : string) : outcome json :=
  match container with
  | JObj fields =>
      match dict_get key fields with
      | Some v => Return v
      | None => Raise KeyError
      end
  | _ => Raise TypeError
  end.

(** [container.get(key, default)]: only a [dict] has the method. *)
Definition py_get (container : json) (key : string) (default : json)
  : outcome json :=
  match container with
  | JObj fields =>
      match dict_get key fields with
      | Some v => Return v
      | None => Return default
      end
  | _ => Raise AttributeError
  end.

End Json.
Export Json.

(** ** The part of pandas the fetcher uses *)

Module Pandas.

(** A table is the list of its rows; a row maps a column label to the
    cell, a label that is absent being a missing cell. *)
Abbreviation Row := (gmap string json).
Abbreviation DataFrame := (list (gmap string json)).

(** [pd.DataFrame()] *)
Definition empty_DataFrame : DataFrame := [].

(** [df.empty]: no row, or no column. *)
Definition df_empty (df : DataFrame) : bool :=
  forallb (fun r : Row => bool_decide (r = ∅)) df.

(** [len(df)] *)
Definition df_len (df : DataFrame) : nat := length df.

(** [df[col] = v] with a scalar [v]: the cell of every row. *)
Definition set_column (col : string) (v : json) (df : DataFrame) : DataFrame :=
  map (fun r : Row => <[col := v]> r) df.

Definition join_key (key_string k : string) : string :=
  if String.eqb key_string "" then k else key_string +:+ "." +:+ k.

(** Nested objects become dotted column labels. *)
Fixpoint normalise_json (key_string : string) (data : json) (acc : Row) : Row :=
  match data with
  | JObj fields =>
      (fix items (fs : list (string * json)) (acc : Row) : Row :=
         match fs with
         | [] => acc
         | (k, v) :: fs' => items fs' (normalise_json (join_key key_string k) v acc)
         end) fields acc
  | v => <[key_string := v]> acc
  end.

(** The row of one entry of the list; an entry that is not an object
    gives a row without columns. *)
Definition record_of (entry : json) : Row :=
  match entry with
  | JObj _ => normalise_json "" entry ∅
  | _ => ∅
  end.

(** [json_normalize(data)]: one row for each entry of a list, a single
    row for a [dict], and [NotImplementedError] for anything else. *)
Definition json_normalize (data : json) : outcome DataFrame :=
  match data with
  | JArr items => Return (map record_of items)
  | JObj _ => Return [record_of data]
  | _ => Raise NotImplementedError
  end.

End Pandas.
Export Pandas.

(** ** teste.py *)

Module Teste.

Record Response : Type := mkResponse {
  status_code : Z;
  text : string;
  (** the body parsed as JSON, [None] when it is not JSON *)
  body : option json
}.

(** What [requests.post] produces on each attempt: a response, or a
    transport exception. *)
Definition Server : Type := Z -> outcome Response.

Definition time_sleep (seconds : Z) : M unit := emit (Sleep seconds).

Definition st_warning (msg : string) : M unit := emit (StWarning msg).

Definition st_error (msg : string) : M unit := emit (StError msg).

Definition requests_post (server : Server) (tentativa : Z)
    (url : string) (payload : Payload) : M Response :=
  emit (Post url payload) >> lift (server tentativa).

(** [response.json()] *)
Definition response_json (r : Response) : M json :=
  match body r with
  | Some v => ret v
  | None => raise JSONDecodeError
  end.

(** [range(lo, hi)] *)
Definition py_range (lo hi : Z) : list Z :=
  map (fun i => lo + Z.of_nat i) (seq 0 (Z.to_nat (hi - lo))).

(** [a and b], with [b] evaluated only when [a] is true. *)
Definition py_and (a : outcome bool) (b : outcome bool) : outcome bool :=
  match a with
  | Return true => b
  | other => other
  end.

(** ["faultcode" in dados and "8020" in dados["faultcode"]] *)
Definition has_fault_8020 (dados : json) : outcome bool :=
  py_and (py_in "faultcode" dados)
         (match py_getitem dados "faultcode" with
          | Return fc => py_in "8020" fc
          | Raise e => Raise e
          end).

Definition url : string := "https://app.omie.com.br/api/v1/financas/caixa/".

(** A [for] loop whose body either goes on to the next value ([None],
    by [continue] or by reaching its end) or leaves the function with
    [return v] ([Some v]); [orelse] is the code after the loop. *)
Fixpoint for_each {A} (body : Z -> M (option A)) (orelse : M A)
    (values : list Z) : M A :=
  match values with
  | [] => orelse
  | v :: rest =>
      let* r := body v in
      match r with
      | Some a => ret a
      | None => for_each body orelse rest
      end
  end.

(** The JSON payload of the request. *)
Definition payload (ano mes : Z) (app_keys : AppKeysConfig) : Payload :=
  {| call := "ListarOrcamentos";
     nAno := ano;
     nMes := mes;
     app_key_sent := app_key app_keys;
     app_secret_sent := app_secret app_keys |}.

Section Fetch.

Variable server : Server.
Variables localidade servico : string.
Variables ano mes : Z.

(** The body of [for tentativa in range(1, tentativas + 1)]. *)
Definition tentativa_body (payload : Payload) (tentativa : Z)
  : M (option DataFrame) :=
  time_sleep (4 * tentativa) >>
  let* response := requests_post server tentativa url payload in
  if status_code response =? 200 then
    let* dados := response_json response in
    let* ocupado := lift (has_fault_8020 dados) in
    if ocupado then
      st_warning ("Tentativa " +:+ str_int tentativa
                  +:+ ": outra requisição em execução para "
                  +:+ localidade +:+ " / " +:+ servico +:+ ". Aguardando...") >>
      ret None
    else
      let* lista := lift (py_get dados "ListaOrcamentos" (JArr [])) in
      if truthy lista then
        let* df := lift (json_normalize lista) in
        let df := set_column "ano" (JInt ano) df in
        let df := set_column "mes" (JStr (zfill 2 (str_int mes))) df in
        let df := set_column "localidade" (JStr localidade) df in
        let df := set_column "servico" (JStr servico) df in
        ret (Some df)
      else
        ret (Some empty_DataFrame)
  else
    st_error ("Erro " +:+ str_int (status_code response) +:+ " - "
              +:+ text response +:+ " para "
              +:+ localidade +:+ " / " +:+ servico) >>
    ret (Some empty_DataFrame).

Definition listar_orcamentos (environ : gmap string string) (tentativas : Z)
  : M DataFrame :=
  let* app_keys := get_app_keys environ localidade servico in
  match app_keys with
  | None =>
      st_error ("Credenciais não encontradas para "
                +:+ localidade +:+ " / " +:+ servico) >>
      ret empty_DataFrame
  | Some app_keys =>
      let payload := payload ano mes app_keys in
      for_each (tentativa_body payload)
        (st_error ("Erro: Limite de tentativas excedido para "
                   +:+ localidade +:+ " / " +:+ servico) >>
         ret empty_DataFrame)
        (py_range 1 (tentativas + 1))
  end.

End Fetch.

(** The default of the parameter [tentativas]. *)
Definition tentativas_default : Z := 3.

End Teste.
Export Teste.

(** ** credenciais.py: the resolvers of the global settings *)

Module ConfigGlobal.

(** A Python value read from the environment, as a dictionary value:
    [None] stays [None]. *)
Definition opt_json (v : option string) : json :=
  match v with
  | Some s => JStr s
  | None => JNull
  end.

(** [all([...])] on values read from the environment. *)
Definition py_all (vs : list (option string)) : bool :=
  forallb truthy_opt_str vs.

Section Imap.

(** [int(s)] on a string: the integer, or [None] when Python raises
    [ValueError].  The text accepted by [int] is Python's; it is a
    parameter of the resolver. *)
Variable int_str : string -> option Z.

Definition get_imap_config (environ : gmap string string)
  : M (option (gmap string json)) :=
  let servidor := environ !! "SERVIDOR" in
  let porta := environ !! "PORTA" in
  if negb (truthy_opt_str servidor) || negb (truthy_opt_str porta) then
    emit (LogWarning "Variáveis de ambiente SERVIDOR ou PORTA não configuradas.") >>
    ret None
  else
    match porta with
    | Some texto =>
        match int_str texto with
        | Some n =>
            ret (Some (<["porta" := JInt n]>
                         (<["servidor" := opt_json servidor]> ∅)))
        | None =>
            emit (LogError "Valor inválido para PORTA; deve ser inteiro.") >>
            ret None
        end
    | None => raise TypeError
    end.

End Imap.

Definition get_azure_config (environ : gmap string string)
  : M (option (gmap string json)) :=
  let key1 := environ !! "KEY1" in
  let key2 := environ !! "KEY2" in
  let regiao := environ !! "REGIAO" in
  let endpoint := environ !! "ENDPOINT" in
  if negb (py_all [key1; key2; regiao; endpoint]) then
    emit (LogWarning "Variáveis de ambiente Azure incompletas.") >>
    ret None
  else
    ret (Some (<["endpoint" := opt_json endpoint]>
                 (<["regiao" := opt_json regiao]>
                    (<["key2" := opt_json key2]>
                       (<["key1" := opt_json key1]> ∅))))).

Definition get_openai_config (environ : gmap string string)
  : M (option (gmap string json)) :=
  let endpoint := environ !! "ENDPOINT_OPENAI" in
  let model_name := environ !! "MODEL_NAME" in
  let deployment := environ !! "DEPLOYMENT" in
  let subscription_key := environ !! "SUBSCRIPTION_KEY" in
  let api_version := environ !! "API_VERSION" in
  if negb (py_all [endpoint; model_name; deployment; subscription_key;
                   api_version]) then
    emit (LogWarning "Variáveis de ambiente OpenAI incompletas.") >>
    ret None
  else
    ret (Some (<["api_version" := opt_json api_version]>
                 (<["subscription_key" := opt_json subscription_key]>
                    (<["deployment" := opt_json deployment]>
                       (<["model_name" := opt_json model_name]>
                          (<["endpoint_openai" := opt_json endpoint]> ∅)))))).

Definition get_paths (environ : gmap string string)
  : M (option (gmap string json)) :=
  let path_boleto := environ !! "PATH_BOLETO" in
  if negb (truthy_opt_str path_boleto) then
    emit (LogWarning "Variável de ambiente PATH_BOLETO não configurada.") >>
    ret None
  else
    ret (Some (<["path_boleto" := opt_json path_boleto]> ∅)).

End ConfigGlobal.
Export ConfigGlobal.

(** ** teste.py: what the button [Buscar dados] runs *)

Module Painel.

Section Script.

(** The branch that converts the columns and draws the chart works on
    floating-point columns; it is a parameter of the script. *)
Variable grafico : DataFrame -> M unit.

(** The block under [if st.sidebar.button("Buscar dados"):], for the
    values chosen in the four selectors. *)
Definition buscar_dados (server : Server) (environ : gmap string string)
    (localidade servico : string) (ano mes : Z) : M unit :=
  let* df := listar_orcamentos server localidade servico ano mes environ
               tentativas_default in
  time_sleep 1 >>
  if df_empty df then
    st_warning "Nenhum dado retornado para o filtro selecionado."
  else
    grafico df.

End Script.

End Painel.
Export Painel.

(** * Vocabulary of the properties *)

(** ** Reading a trace *)

Definition is_post (ev : event) : bool :=
  match ev with Post _ _ => true | _ => false end.

Definition is_sleep_or_post (ev : event) : bool :=
  match ev with Sleep _ | Post _ _ => true | _ => false end.

Definition is_error (ev : event) : bool :=
  match ev with StError _ | LogError _ => true | _ => false end.

(** How many POST requests a trace holds. *)
Definition count_posts (tr : list event) : nat :=
  length (List.filter is_post tr).

(** The sleeps and the POST requests of a trace, in program order. *)
Definition sleeps_and_posts (tr : list event) : list event :=
  List.filter is_sleep_or_post tr.

(** No error banner and no error log in a trace. *)
Definition no_error (tr : list event) : Prop :=
  Forall (fun ev => is_error ev = false) tr.

(** The attempt on [v] ends with [continue]. *)
Definition continues {A} (body : Z -> M (option A)) (v : Z) : Prop :=
  result (body v) = Return None.

(** The events of the attempts on the values [vs], one after the other. *)
Definition traces_of {A} (body : Z -> M (option A)) (vs : list Z)
  : list event :=
  flat_map (fun v => trace (body v)) vs.

(** A response that carries the vendor's busy fault: status 200 and a
    [faultcode] string in which ["8020"] occurs. *)
Definition busy_response (r : Response) : Prop :=
  status_code r = 200 /\
  exists fields code,
    body r = Some (JObj fields) /\
    dict_get "faultcode" fields = Some (JStr code) /\
    str_contains "8020" code = true.

(** The server's answer on attempt [t] sends the loop to [continue]. *)
Definition retried (server : Server) (t : Z) : Prop :=
  exists r dados,
    server t = Return r /\ status_code r = 200 /\
    body r = Some dados /\ has_fault_8020 dados = Return true.

(** The four tag columns of a row. *)
Definition tagged (localidade servico : string) (ano mes : Z) (row : Row)
  : Prop :=
  row !! "ano" = Some (JInt ano) /\
  row !! "mes" = Some (JStr (zfill 2 (str_int mes))) /\
  row !! "localidade" = Some (JStr localidade) /\
  row !! "servico" = Some (JStr servico).

(** A variable is unset, or set to the empty string. *)
Definition unset_or_empty (environ : gmap string string) (name : string) : Prop :=
  environ !! name = None \/ environ !! name = Some "".

(** At least [n] requests were posted: attempt number [n] took place. *)
Definition attempt_made (tr : list event) (n : Z) : Prop :=
  (Z.to_nat n <= count_posts tr)%nat.

(** The banner shown when every attempt met the busy fault. *)
Definition exceeded_error (localidade servico : string) : event :=
  StError ("Erro: Limite de tentativas excedido para "
           +:+ localidade +:+ " / " +:+ servico).

(** The banner shown for a response whose status is not 200. *)
Definition status_error (localidade servico : string) (r : Response) : event :=
  StError ("Erro " +:+ str_int (status_code r) +:+ " - " +:+ text r
           +:+ " para " +:+ localidade +:+ " / " +:+ servico).

(** The month written with two decimal digits. *)
Definition two_digits (m : Z) : string :=
  let digit d := ascii_of_nat (48 + Z.to_nat d) in
  String (digit (m / 10)) (String (digit (m mod 10)) EmptyString).

(** An environment with the keys of one locality and service. *)
Definition environ_pinheirinho : gmap string string :=
  <["PINHEIRINHO_CARTAO_APP_KEY" := "k123"]>
    (<["PINHEIRINHO_CARTAO_APP_SECRET" := "s456"]> ∅).

(** An environment in which the secret is set to the empty string. *)
Definition environ_empty_secret : gmap string string :=
  <["PINHEIRINHO_CARTAO_APP_KEY" := "k123"]>
    (<["PINHEIRINHO_CARTAO_APP_SECRET" := ""]> ∅).

(** ** Mocked servers *)

Definition busy_fault : Response :=
  {| status_code := 200;
     text := "busy";
     body := Some (JObj [("faultstring", JStr "Consumo redundante");
                         ("faultcode", JStr "SOAP-ENV:Client-8020")]) |}.

Definition one_entry : Response :=
  {| status_code := 200;
     text := "one entry";
     body := Some (JObj [("ListaOrcamentos",
                          JArr [JObj [("cDesCateg", JStr "Receitas");
                                      ("nValorPrevisto", JInt 100);
                                      ("nValorRealizado", JInt 80)]])]) |}.

Definition no_entry : Response :=
  {| status_code := 200;
     text := "no entry";
     body := Some (JObj [("ListaOrcamentos", JArr [])]) |}.

Definition not_found : Response :=
  {| status_code := 404; text := "Not Found"; body := None |}.

Definition server_busy_twice : Server :=
  fun t => if t <? 3 then Return busy_fault else Return one_entry.

Definition server_always_busy : Server := fun _ => Return busy_fault.

Definition server_not_found : Server := fun _ => Return not_found.

Definition server_busy_then_empty : Server :=
  fun t => if t <? 2 then Return busy_fault else Return no_entry.

(** The table fetched from [server_busy_twice]. *)
Definition fetched_one_entry : DataFrame :=
  match result (listar_orcamentos server_busy_twice "pinheirinho" "cartao"
                  2024 5 environ_pinheirinho 3) with
  | Return df => df
  | Raise _ => []
  end.

(** The seconds slept along a trace. *)
Fixpoint total_sleep (tr : list event) : Z :=
  match tr with
  | [] => 0
  | Sleep seconds :: tr' => seconds + total_sleep tr'
  | _ :: tr' => total_sleep tr'
  end.

(** An environment with the global settings. *)
Definition environ_global : gmap string string :=
  <["SERVIDOR" := "imap.example.com"]>
    (<["PORTA" := "993"]>
       (<["KEY1" := "a1"]>
          (<["KEY2" := "a2"]>
             (<["REGIAO" := "brazilsouth"]>
                (<["ENDPOINT" := "https://azure.example.com"]>
                   (<["PATH_BOLETO" := "/srv/boletos"]>
                      (<["PINHEIRINHO_CARTAO_EMAIL" := "a@example.com"]>
                         (<["PINHEIRINHO_CARTAO_SENHA" := "pw"]> ∅)))))))).

(** A server whose connection fails on the second attempt. *)
Definition server_drops : Server :=
  fun t => if t <? 2 then Return busy_fault else Raise RequestException.

Definition not_json : Response :=
  {| status_code := 200; text := "<html>"; body := None |}.

Definition numeric_fault : Response :=
  {| status_code := 200;
     text := "numeric fault";
     body := Some (JObj [("faultcode", JInt 8020)]) |}.

Definition two_entries : Response :=
  {| status_code := 200;
     text := "two entries";
     body := Some (JObj [("ListaOrcamentos",
                          JArr [JObj [("cDesCateg", JStr "Receitas")];
                                JObj [("cDesCateg", JStr "Despesas")]])]) |}.

(** At most one error is shown, as the very last event, and the value
    returned is then [a0]. *)
Definition error_at_end {A} (a0 : A) (m : M A) : Prop :=
  exists quiet tail,
    trace m = quiet ++ tail /\ no_error quiet /\
    (tail = [] \/ exists msg, tail = [StError msg] /\ result m = Return a0).

(** A JSON value on which Python's [in] raises [TypeError]. *)
Definition not_iterable (v : json) : bool :=
  match v with
  | JNull | JBool _ | JInt _ | JFloat _ => true
  | _ => false
  end.

(** The process environment holds only names that can be encoded: it is
    built by decoding the names the process received. *)
Definition environ_wf (fs_encodable : string -> bool)
    (environ : gmap string string) : Prop :=
  forall name, is_Some (environ !! name) -> fs_encodable name = true.

(** The encoder of a POSIX platform (UTF-8 with [surrogateescape]), on
    text held as UTF-8 bytes with a lone surrogate as its three bytes
    [ED A0..BF xx]: a lone surrogate is accepted only in U+DC80..U+DCFF,
    that is with second byte [B2] or [B3]. *)
Fixpoint posix_encodable (s : string) : bool :=
  match s with
  | EmptyString => true
  | String c rest =>
      match rest with
      | String d _ =>
          let lead := nat_of_ascii c in
          let next := nat_of_ascii d in
          if (lead =? 237)%nat && (160 <=? next)%nat && (next <=? 191)%nat
             && negb ((next =? 178)%nat || (next =? 179)%nat)
          then false
          else posix_encodable rest
      | EmptyString => true
      end
  end.

(** The one-character text U+D800, a lone surrogate. *)
Definition lone_surrogate : string :=
  String (ascii_of_nat 237)
    (String (ascii_of_nat 160) (String (ascii_of_nat 128) EmptyString)).

(** A stand-in for the [EmailStr] validation on the addresses used
    below: an address is accepted when it holds ["@"], and its
    normalised form is the ASCII lower-casing of the whole address,
    which for these addresses is what lower-casing the domain gives. *)
Definition lower_char (c : ascii) : ascii :=
  let n := nat_of_ascii c in
  if (65 <=? n)%nat && (n <=? 90)%nat then ascii_of_nat (n + 32) else c.

Fixpoint lower (s : string) : string :=
  match s with
  | EmptyString => EmptyString
  | String c s' => String (lower_char c) (lower s')
  end.

Definition email_str_example (s : string) : option string :=
  if str_contains "@" s then Some (lower s) else None.

(** An environment whose address has an upper-case domain. *)
Definition environ_email : gmap string string :=
  <["PINHEIRINHO_CARTAO_EMAIL" := "user@EXAMPLE.COM"]>
    (<["PINHEIRINHO_CARTAO_SENHA" := "pw"]> ∅).

(** * Lemmas *)

(** ** The primitives on small inputs *)

Example upper_pinheirinho : upper "Pinheirinho_1" = "PINHEIRINHO_1".
Proof. reflexivity. Qed.

Example zfill_month_5 : zfill 2 (str_int 5) = "05".
Proof. reflexivity. Qed.

Example zfill_month_12 : zfill 2 (str_int 12) = "12".
Proof. reflexivity. Qed.

Example zfill_after_sign : zfill 4 "-7" = "-007".
Proof. reflexivity. Qed.

Example contains_8020 : str_contains "8020" "SOAP-ENV:Client-8020" = true.
Proof. reflexivity. Qed.

Example contains_8020_not : str_contains "8020" "SOAP-ENV:Client-5113" = false.
Proof. reflexivity. Qed.

Example fault_of_list_body :
  has_fault_8020 (JArr [JStr "faultcode"]) = Raise TypeError.
Proof. reflexivity. Qed.

Example fault_of_number_code :
  has_fault_8020 (JObj [("faultcode", JInt 8020)]) = Raise TypeError.
Proof. reflexivity. Qed.

Example normalize_nested :
  json_normalize (JArr [JObj [("a", JInt 1); ("b", JObj [("c", JStr "x")])]])
  = Return [<["b.c" := JStr "x"]> (<["a" := JInt 1]> ∅)].
Proof. reflexivity. Qed.

Example range_attempts : py_range 1 (tentativas_default + 1) = [1; 2; 3].
Proof. reflexivity. Qed.

(** ** Lemmas on traces and on the monad *)

Lemma count_posts_app (t1 t2 : list event) :
  count_posts (t1 ++ t2) = (count_posts t1 + count_posts t2)%nat.
Proof.
  unfold count_posts. now rewrite List.filter_app, length_app.
Qed.

Lemma sleeps_and_posts_app (t1 t2 : list event) :
  sleeps_and_posts (t1 ++ t2) = sleeps_and_posts t1 ++ sleeps_and_posts t2.
Proof. unfold sleeps_and_posts. apply List.filter_app. Qed.

Lemma no_error_app (t1 t2 : list event) :
  no_error (t1 ++ t2) <-> no_error t1 /\ no_error t2.
Proof. unfold no_error. apply Forall_app. Qed.

Lemma M_eta {A} (m : M A) : m = (trace m, result m).
Proof. now destruct m. Qed.

(** ** The loop *)

Section Loop.

Context {A : Type}.
Variable body : Z -> M (option A).
Variable orelse : M A.

Lemma for_each_cons (v : Z) (rest : list Z) :
  for_each body orelse (v :: rest) =
  match result (body v) with
  | Return None =>
      (trace (body v) ++ trace (for_each body orelse rest),
       result (for_each body orelse rest))
  | Return (Some a) => (trace (body v), Return a)
  | Raise e => (trace (body v), Raise e)
  end.
Proof.
  simpl. destruct (body v) as [t [[a|]|e]]; simpl.
  - now rewrite app_nil_r.
  - now destruct (for_each body orelse rest).
  - reflexivity.
Qed.

(** Every value continues: the loop runs to its end and the code after
    it decides. *)
Lemma for_each_exhausted (vs : list Z) :
  Forall (continues body) vs ->
  for_each body orelse vs = (traces_of body vs ++ trace orelse, result orelse).
Proof.
  induction 1 as [|v rest Hv _ IH].
  - simpl. apply M_eta.
  - rewrite for_each_cons, Hv, IH. simpl.
    unfold traces_of. simpl. now rewrite app_assoc.
Qed.

(** The values before position [i] continue and the one at [i] returns:
    the loop stops there. *)
Lemma for_each_returns (vs : list Z) (i : nat) (v : Z) (a : A) :
  vs !! i = Some v ->
  Forall (continues body) (take i vs) ->
  result (body v) = Return (Some a) ->
  for_each body orelse vs = (traces_of body (take i vs) ++ trace (body v), Return a).
Proof.
  revert i. induction vs as [|v0 rest IH]; intros i Hi Hpre Hv.
  - discriminate.
  - destruct i as [|i]; simpl in Hi.
    + injection Hi as ->. now rewrite for_each_cons, Hv.
    + simpl in Hpre. inversion Hpre as [|? ? Hv0 Hrest]; subst.
      rewrite for_each_cons, Hv0, (IH i Hi Hrest Hv). simpl.
      unfold traces_of. simpl. now rewrite app_assoc.
Qed.

(** A value returned by the loop comes from one of the attempts or from
    the code after the loop. *)
Lemma for_each_result (vs : list Z) (a : A) :
  result (for_each body orelse vs) = Return a ->
  result orelse = Return a \/
  exists v, In v vs /\ result (body v) = Return (Some a).
Proof.
  induction vs as [|v0 rest IH]; [now left|].
  rewrite for_each_cons.
  destruct (result (body v0)) as [[a0|]|e] eqn:Hv0; simpl.
  - intros [= ->]. right. exists v0. split; [now left|exact Hv0].
  - intros H. destruct (IH H) as [Ho|(v & Hin & Hv)]; [now left|].
    right. exists v. split; [now right|exact Hv].
  - discriminate.
Qed.

(** The values before position [i] continue and the one at [i] raises:
    the exception leaves the loop. *)
Lemma for_each_raises (vs : list Z) (i : nat) (v : Z) (e : exn) :
  vs !! i = Some v ->
  Forall (continues body) (take i vs) ->
  result (body v) = Raise e ->
  for_each body orelse vs = (traces_of body (take i vs) ++ trace (body v), Raise e).
Proof.
  revert i. induction vs as [|v0 rest IH]; intros i Hi Hpre Hv.
  - discriminate.
  - destruct i as [|i]; simpl in Hi.
    + injection Hi as ->. now rewrite for_each_cons, Hv.
    + simpl in Hpre. inversion Hpre as [|? ? Hv0 Hrest]; subst.
      rewrite for_each_cons, Hv0, (IH i Hi Hrest Hv). simpl.
      unfold traces_of. simpl. now rewrite app_assoc.
Qed.

(** Attempts that continue show no error and every attempt keeps its
    error, if any, for the end: so does the loop. *)
Lemma for_each_error_at_end (a0 : A) (vs : list Z) :
  (forall v, continues body v -> no_error (trace (body v))) ->
  (forall v, error_at_end (Some a0) (body v)) ->
  error_at_end a0 orelse ->
  error_at_end a0 (for_each body orelse vs).
Proof.
  intros Hquiet Hbody Horelse.
  induction vs as [|v0 rest IH]; [exact Horelse|].
  rewrite for_each_cons.
  destruct (result (body v0)) as [[a|]|e] eqn:Hv0.
  - destruct (Hbody v0) as (q & tl & Htr & Hq & Htl).
    exists q, tl. cbn [trace result fst snd].
    split; [exact Htr|]. split; [exact Hq|].
    destruct Htl as [->|(msg & -> & Hres)]; [now left|].
    right. exists msg. split; [reflexivity|].
    rewrite Hv0 in Hres. now injection Hres as ->.
  - destruct IH as (q & tl & Htr & Hq & Htl).
    exists (trace (body v0) ++ q), tl. cbn [trace result fst snd].
    split; [now rewrite Htr, app_assoc|].
    split; [apply no_error_app; split; [now apply Hquiet|exact Hq]|].
    exact Htl.
  - destruct (Hbody v0) as (q & tl & Htr & Hq & Htl).
    exists q, tl. cbn [trace result fst snd].
    split; [exact Htr|]. split; [exact Hq|].
    destruct Htl as [->|(msg & -> & Hres)]; [now left|].
    rewrite Hv0 in Hres. discriminate.
Qed.

Hypothesis body_one_post : forall v, count_posts (trace (body v)) = 1%nat.

Lemma count_posts_traces_of (vs : list Z) :
  count_posts (traces_of body vs) = length vs.
Proof.
  induction vs as [|v rest IH]; [reflexivity|].
  unfold traces_of in *. simpl.
  now rewrite count_posts_app, body_one_post, IH.
Qed.

(** If more than [i] requests were posted, the attempts before position
    [i] all ended with [continue]. *)
Lemma for_each_reached (vs : list Z) (i : nat) :
  (i < count_posts (trace (for_each body orelse vs)))%nat ->
  (i < length vs)%nat ->
  Forall (continues body) (take i vs).
Proof.
  revert i. induction vs as [|v0 rest IH]; intros i Hposts Hlen.
  - simpl in Hlen. lia.
  - destruct i as [|i]; [constructor|].
    simpl. rewrite for_each_cons in Hposts.
    destruct (result (body v0)) as [[a|]|e] eqn:Hv0; simpl in Hposts;
      rewrite ?count_posts_app, body_one_post in Hposts; try lia.
    constructor; [exact Hv0|].
    apply IH; [lia|simpl in Hlen; lia].
Qed.

Lemma for_each_count_posts_le (vs : list Z) :
  (count_posts (trace (for_each body orelse vs))
   <= length vs + count_posts (trace orelse))%nat.
Proof.
  induction vs as [|v0 rest IH]; [simpl; lia|].
  rewrite for_each_cons.
  destruct (result (body v0)) as [[a|]|e]; simpl;
    rewrite ?count_posts_app, body_one_post; lia.
Qed.

Variable marks : Z -> list event.
Hypothesis body_marks : forall v, sleeps_and_posts (trace (body v)) = marks v.
Hypothesis orelse_quiet : sleeps_and_posts (trace orelse) = [].
Hypothesis orelse_no_post : count_posts (trace orelse) = 0%nat.

(** The sleeps and requests of the loop are those of the attempts made,
    one after the other. *)
Lemma for_each_sleeps_and_posts (vs : list Z) :
  sleeps_and_posts (trace (for_each body orelse vs)) =
  flat_map marks (take (count_posts (trace (for_each body orelse vs))) vs).
Proof.
  induction vs as [|v0 rest IH].
  - simpl. rewrite orelse_quiet. now rewrite take_nil.
  - rewrite for_each_cons.
    destruct (result (body v0)) as [[a|]|e]; simpl;
      rewrite ?count_posts_app, ?sleeps_and_posts_app, body_one_post,
        body_marks; simpl; rewrite ?take_0, ?app_nil_r; try reflexivity.
    now rewrite IH.
Qed.

End Loop.

(** ** [range] *)

Lemma py_range_length (lo hi : Z) : length (py_range lo hi) = Z.to_nat (hi - lo).
Proof. unfold py_range. now rewrite length_map, length_seq. Qed.

Lemma py_range_lookup (lo hi : Z) (i : nat) :
  (i < Z.to_nat (hi - lo))%nat ->
  py_range lo hi !! i = Some (lo + Z.of_nat i).
Proof.
  intros Hi. unfold py_range.
  rewrite list_lookup_fmap, lookup_seq_lt by exact Hi. reflexivity.
Qed.

Lemma py_range_take (lo hi : Z) (i : nat) :
  (i <= Z.to_nat (hi - lo))%nat ->
  take i (py_range lo hi) = py_range lo (lo + Z.of_nat i).
Proof.
  intros Hi. unfold py_range.
  rewrite <- fmap_take, take_seq.
  replace (Z.to_nat (lo + Z.of_nat i - lo)) with i by lia.
  now rewrite Nat.min_l by exact Hi.
Qed.

Lemma py_range_Forall (P : Z -> Prop) (lo hi : Z) :
  (forall t, lo <= t < hi -> P t) -> Forall P (py_range lo hi).
Proof.
  intros H. unfold py_range. apply List.Forall_forall. intros x Hx.
  apply in_map_iff in Hx as [i [<- Hi]]. apply in_seq in Hi. apply H. lia.
Qed.

Lemma py_range_Forall_inv (P : Z -> Prop) (lo hi : Z) :
  Forall P (py_range lo hi) -> forall t, lo <= t < hi -> P t.
Proof.
  intros H t Ht. rewrite List.Forall_forall in H. apply H.
  unfold py_range. apply in_map_iff. exists (Z.to_nat (t - lo)).
  split; [lia|]. apply in_seq. lia.
Qed.

(** ** One attempt *)

Lemma busy_response_fault (r : Response) :
  busy_response r ->
  exists dados, body r = Some dados /\ has_fault_8020 dados = Return true.
Proof.
  intros [_ (fields & code & Hb & Hf & Hc)].
  exists (JObj fields). split; [exact Hb|].
  unfold has_fault_8020. simpl. rewrite Hf. simpl. now rewrite Hc.
Qed.

Lemma busy_response_retried (server : Server) (t : Z) (r : Response) :
  server t = Return r -> busy_response r -> retried server t.
Proof.
  intros Hs Hb. destruct (busy_response_fault r Hb) as (dados & Hd & Hf).
  exists r, dados. destruct Hb as [H200 _]. auto.
Qed.

Lemma tags_attached (localidade servico : string) (ano mes : Z) (df : DataFrame) :
  Forall (tagged localidade servico ano mes)
    (set_column "servico" (JStr servico)
       (set_column "localidade" (JStr localidade)
          (set_column "mes" (JStr (zfill 2 (str_int mes)))
             (set_column "ano" (JInt ano) df)))).
Proof.
  apply List.Forall_forall. intros row Hrow.
  unfold set_column in Hrow. rewrite !map_map in Hrow.
  apply in_map_iff in Hrow as [r0 [<- _]].
  unfold tagged. repeat split.
  - rewrite !lookup_insert_ne by discriminate. apply lookup_insert_eq.
  - rewrite !lookup_insert_ne by discriminate. apply lookup_insert_eq.
  - rewrite !lookup_insert_ne by discriminate. apply lookup_insert_eq.
  - apply lookup_insert_eq.
Qed.

Section Attempt.

Variable server : Server.
Variables localidade servico : string.
Variables ano mes : Z.
Variable p : Payload.

Local Abbreviation attempt := (tentativa_body server localidade servico ano mes p).

Local Arguments has_fault_8020 : simpl never.
Local Arguments py_get : simpl never.
Local Arguments json_normalize : simpl never.
Local Arguments truthy : simpl never.
Local Arguments str_int : simpl never.
Local Arguments zfill : simpl never.
Local Arguments String.append : simpl never.
Local Arguments Z.mul : simpl never.

(** Case analysis along the branches of one attempt. *)
Ltac attempt_cases t :=
  unfold tentativa_body, requests_post, response_json, time_sleep,
    st_warning, st_error, emit, lift, ret, raise, bind, trace, result,
    empty_DataFrame;
  simpl;
  destruct (server t) as [r|e] eqn:Hserver; simpl;
  [ destruct (status_code r =? 200) eqn:Hstatus; simpl;
    [ destruct (body r) as [dados|] eqn:Hbody; simpl;
      [ destruct (has_fault_8020 dados) as [[|]|e] eqn:Hfault; simpl;
        [ | destruct (py_get dados "ListaOrcamentos" (JArr []))
                as [lista|e] eqn:Hget; simpl;
            [ destruct (truthy lista) eqn:Htruthy; simpl;
              [ destruct (json_normalize lista) as [df|e] eqn:Hnorm; simpl
              | ]
            | ]
        | ]
      | ]
    | ]
  | ];
  try easy.

Lemma attempt_one_post (t : Z) : count_posts (trace (attempt t)) = 1%nat.
Proof. attempt_cases t. Qed.

Lemma attempt_sleeps_and_posts (t : Z) :
  sleeps_and_posts (trace (attempt t)) = [Sleep (4 * t); Post url p].
Proof. attempt_cases t. Qed.

Lemma attempt_starts (t : Z) :
  exists rest, trace (attempt t) = Sleep (4 * t) :: Post url p :: rest.
Proof. attempt_cases t; eauto. Qed.

(** The loop goes on exactly when the answer is the busy fault. *)
Lemma attempt_continues_iff (t : Z) :
  continues attempt t <-> retried server t.
Proof.
  unfold continues, retried. split.
  - attempt_cases t. intros _. exists r, dados.
    apply Z.eqb_eq in Hstatus. auto.
  - intros (r & dados & Hs & H200 & Hb & Hf).
    unfold tentativa_body, requests_post, response_json, lift, bind, result.
    simpl. rewrite Hs. simpl.
    apply Z.eqb_eq in H200. rewrite H200, Hb. simpl. now rewrite Hf.
Qed.

Lemma attempt_continues_trace (t : Z) :
  continues attempt t -> no_error (trace (attempt t)).
Proof.
  unfold continues, no_error. attempt_cases t.
  intros _. repeat constructor.
Qed.

(** Any status other than 200: an error banner and the empty table. *)
Lemma attempt_not_200 (t : Z) (r : Response) :
  server t = Return r -> status_code r <> 200 ->
  attempt t =
    ([Sleep (4 * t); Post url p;
      StError ("Erro " +:+ str_int (status_code r) +:+ " - " +:+ text r
               +:+ " para " +:+ localidade +:+ " / " +:+ servico)],
     Return (Some empty_DataFrame)).
Proof.
  intros Hs Hne. apply Z.eqb_neq in Hne.
  unfold tentativa_body, requests_post, st_error, emit, lift, ret, bind.
  simpl. rewrite Hs. simpl. now rewrite Hne.
Qed.

(** Status 200, no busy fault: the result list decides. *)
Lemma attempt_success (t : Z) (r : Response) (dados lista : json) :
  server t = Return r -> status_code r = 200 -> body r = Some dados ->
  has_fault_8020 dados = Return false ->
  py_get dados "ListaOrcamentos" (JArr []) = Return lista ->
  attempt t =
    ([Sleep (4 * t); Post url p],
     if truthy lista then
       match json_normalize lista with
       | Return df =>
           Return (Some
             (set_column "servico" (JStr servico)
                (set_column "localidade" (JStr localidade)
                   (set_column "mes" (JStr (zfill 2 (str_int mes)))
                      (set_column "ano" (JInt ano) df)))))
       | Raise e => Raise e
       end
     else Return (Some empty_DataFrame)).
Proof.
  intros Hs H200 Hb Hf Hg. apply Z.eqb_eq in H200.
  unfold tentativa_body, requests_post, response_json, time_sleep, emit,
    lift, ret, bind.
  simpl. rewrite Hs. simpl. rewrite H200, Hb. simpl. rewrite Hf. simpl.
  rewrite Hg. simpl. destruct (truthy lista); simpl; [|reflexivity].
  now destruct (json_normalize lista).
Qed.

(** Whatever table an attempt returns, all its rows carry the tags. *)
Lemma attempt_tagged (t : Z) (tabela : DataFrame) :
  result (attempt t) = Return (Some tabela) ->
  Forall (tagged localidade servico ano mes) tabela.
Proof.
  attempt_cases t; intros H; injection H as <-;
    try (now constructor).
  apply tags_attached.
Qed.

(** When [requests.post] raises, so does the attempt. *)
Lemma attempt_transport (t : Z) (e : exn) :
  server t = Raise e ->
  attempt t = ([Sleep (4 * t); Post url p], Raise e).
Proof.
  intros Hs. unfold tentativa_body, requests_post, time_sleep, emit, lift, bind.
  simpl. now rewrite Hs.
Qed.

(** Status 200 with a body that is not JSON. *)
Lemma attempt_not_json (t : Z) (r : Response) :
  server t = Return r -> status_code r = 200 -> body r = None ->
  attempt t = ([Sleep (4 * t); Post url p], Raise JSONDecodeError).
Proof.
  intros Hs H200 Hb. apply Z.eqb_eq in H200.
  unfold tentativa_body, requests_post, response_json, time_sleep, emit,
    lift, raise, bind.
  simpl. rewrite Hs. simpl. now rewrite H200, Hb.
Qed.

(** Status 200 with a body on which the busy test raises. *)
Lemma attempt_fault_raises (t : Z) (r : Response) (dados : json) (e : exn) :
  server t = Return r -> status_code r = 200 -> body r = Some dados ->
  has_fault_8020 dados = Raise e ->
  attempt t = ([Sleep (4 * t); Post url p], Raise e).
Proof.
  intros Hs H200 Hb Hf. apply Z.eqb_eq in H200.
  unfold tentativa_body, requests_post, response_json, time_sleep, emit,
    lift, ret, bind.
  simpl. rewrite Hs. simpl. rewrite H200, Hb. simpl. now rewrite Hf.
Qed.

(** An attempt shows at most one error, as its last event, and then
    returns the empty table. *)
Lemma attempt_error_at_end (t : Z) :
  error_at_end (Some empty_DataFrame) (attempt t).
Proof.
  unfold error_at_end.
  attempt_cases t;
    first
      [ exists (Sleep (4 * t) :: Post url p :: nil); eexists (StError _ :: nil);
        split; [reflexivity|]; split; [repeat constructor|];
        right; eexists; split; reflexivity
      | eexists; exists nil;
        split; [symmetry; apply app_nil_r|];
        split; [repeat constructor|left; reflexivity] ].
Qed.

End Attempt.

(** ** Resolving credentials *)

Lemma truthy_opt_str_true (v : option string) :
  truthy_opt_str v = true <-> exists s, v = Some s /\ s <> "".
Proof.
  destruct v as [s|]; simpl.
  - rewrite negb_true_iff, String.eqb_neq. split.
    + intros H. exists s. auto.
    + intros (s' & [= <-] & H). exact H.
  - split; [discriminate|]. intros (s & H & _). discriminate.
Qed.

Lemma truthy_opt_str_false (v : option string) :
  truthy_opt_str v = false <-> v = None \/ v = Some "".
Proof.
  destruct v as [s|]; simpl.
  - rewrite negb_false_iff, String.eqb_eq. split.
    + intros ->. now right.
    + intros [H|[= ->]]; [discriminate|reflexivity].
  - split; auto.
Qed.

Lemma field_min_length_1_ok (name s : string) :
  s <> "" -> field_min_length_1 name (Some s) = [].
Proof. destruct s; [congruence|reflexivity]. Qed.

(** Two non-empty strings always pass the [min_length=1] validation. *)
Lemma new_AppKeysConfig_ok (k s : string) :
  k <> "" -> s <> "" ->
  new_AppKeysConfig (Some k) (Some s) = ret (mkAppKeysConfig k s).
Proof.
  intros Hk Hs. unfold new_AppKeysConfig.
  now rewrite (field_min_length_1_ok _ k Hk), (field_min_length_1_ok _ s Hs).
Qed.

Lemma get_app_keys_found (environ : gmap string string)
    (localidade servico k s : string) :
  environ !! (upper localidade +:+ "_" +:+ upper servico +:+ "_APP_KEY") = Some k ->
  environ !! (upper localidade +:+ "_" +:+ upper servico +:+ "_APP_SECRET") = Some s ->
  k <> "" -> s <> "" ->
  get_app_keys environ localidade servico =
    ([], Return (Some (mkAppKeysConfig k s))).
Proof.
  intros Hk Hs Hkne Hsne. unfold get_app_keys. rewrite Hk, Hs.
  assert (truthy_opt_str (Some k) = true) as ->
    by (apply truthy_opt_str_true; eauto).
  assert (truthy_opt_str (Some s) = true) as ->
    by (apply truthy_opt_str_true; eauto).
  simpl. now rewrite new_AppKeysConfig_ok.
Qed.

Lemma get_app_keys_missing (environ : gmap string string)
    (localidade servico : string) :
  truthy_opt_str
    (environ !! (upper localidade +:+ "_" +:+ upper servico +:+ "_APP_KEY")) = false \/
  truthy_opt_str
    (environ !! (upper localidade +:+ "_" +:+ upper servico +:+ "_APP_SECRET")) = false ->
  get_app_keys environ localidade servico =
    ([LogWarning ("Variáveis de ambiente "
                  +:+ (upper localidade +:+ "_" +:+ upper servico +:+ "_APP_KEY")
                  +:+ " ou "
                  +:+ (upper localidade +:+ "_" +:+ upper servico +:+ "_APP_SECRET")
                  +:+ " não configuradas.")],
     Return None).
Proof.
  intros H. unfold get_app_keys.
  destruct H as [-> | ->]; simpl; rewrite ?orb_true_r; reflexivity.
Qed.

(** The two ways [get_app_keys] can end. *)
Lemma get_app_keys_cases (environ : gmap string string)
    (localidade servico : string) :
  (exists msg,
      get_app_keys environ localidade servico = ([LogWarning msg], Return None) /\
      (truthy_opt_str
         (environ !! (upper localidade +:+ "_" +:+ upper servico +:+ "_APP_KEY")) = false \/
       truthy_opt_str
         (environ !! (upper localidade +:+ "_" +:+ upper servico +:+ "_APP_SECRET")) = false)) \/
  (exists k s,
      environ !! (upper localidade +:+ "_" +:+ upper servico +:+ "_APP_KEY") = Some k /\
      environ !! (upper localidade +:+ "_" +:+ upper servico +:+ "_APP_SECRET") = Some s /\
      k <> "" /\ s <> "" /\
      get_app_keys environ localidade servico =
        ([], Return (Some (mkAppKeysConfig k s)))).
Proof.
  destruct (truthy_opt_str
    (environ !! (upper localidade +:+ "_" +:+ upper servico +:+ "_APP_KEY")))
    eqn:Hk.
  - destruct (truthy_opt_str
      (environ !! (upper localidade +:+ "_" +:+ upper servico +:+ "_APP_SECRET")))
      eqn:Hs.
    + right. apply truthy_opt_str_true in Hk as (k & Hk & Hkne).
      apply truthy_opt_str_true in Hs as (s & Hs & Hsne).
      exists k, s. repeat split; auto. now apply get_app_keys_found.
    + left. eexists. split; [apply get_app_keys_missing|]; auto.
  - left. eexists. split; [apply get_app_keys_missing|]; auto.
Qed.

Lemma get_email_config_missing (email_str_ok : string -> bool)
    (environ : gmap string string) (localidade servico : string) :
  truthy_opt_str
    (environ !! (upper localidade +:+ "_" +:+ upper servico +:+ "_EMAIL")) = false \/
  truthy_opt_str
    (environ !! (upper localidade +:+ "_" +:+ upper servico +:+ "_SENHA")) = false ->
  result (get_email_config email_str_ok environ localidade servico) = Return None.
Proof.
  intros H. unfold get_email_config.
  destruct H as [-> | ->]; simpl; rewrite ?orb_true_r; reflexivity.
Qed.

(** [get_email_config] catches the only exception its body can raise. *)
Lemma get_email_config_returns (email_str_ok : string -> bool)
    (environ : gmap string string) (localidade servico : string) :
  exists r,
    result (get_email_config email_str_ok environ localidade servico) = Return r.
Proof.
  unfold get_email_config.
  set (email := environ !! _). set (senha := environ !! _).
  destruct (negb (truthy_opt_str email) || negb (truthy_opt_str senha));
    simpl; [eauto|].
  unfold new_EmailConfig.
  destruct (field_EmailStr email_str_ok "email" email
            ++ field_min_length_1 "senha" senha) as [|f fs];
    [destruct email, senha|]; simpl; eauto.
Qed.

Lemma upper_char_idempotent (c : ascii) : upper_char (upper_char c) = upper_char c.
Proof. destruct c as [[] [] [] [] [] [] [] []]; reflexivity. Qed.

Lemma upper_idempotent (s : string) : upper (upper s) = upper s.
Proof.
  induction s as [|c s IH]; [reflexivity|].
  simpl. now rewrite upper_char_idempotent, IH.
Qed.

(** The resolver reads only the upper-cased names. *)
Lemma get_app_keys_case_insensitive (environ : gmap string string)
    (localidade servico localidade' servico' : string) :
  upper localidade' = upper localidade -> upper servico' = upper servico ->
  get_app_keys environ localidade' servico' =
  get_app_keys environ localidade servico.
Proof. intros Hl Hs. unfold get_app_keys. now rewrite Hl, Hs. Qed.

(** ** The whole fetch *)

Lemma unset_or_empty_truthy (environ : gmap string string) (name : string) :
  unset_or_empty environ name <-> truthy_opt_str (environ !! name) = false.
Proof. unfold unset_or_empty. symmetry. apply truthy_opt_str_false. Qed.

Section Run.

Variable server : Server.
Variables localidade servico : string.
Variables ano mes : Z.
Variable environ : gmap string string.
Variable tentativas : Z.

Local Abbreviation run :=
  (listar_orcamentos server localidade servico ano mes environ tentativas).

Local Abbreviation exceeded :=
  (st_error ("Erro: Limite de tentativas excedido para "
             +:+ localidade +:+ " / " +:+ servico) >>
   ret empty_DataFrame).

Lemma listar_resolved (keys : AppKeysConfig) :
  result (get_app_keys environ localidade servico) = Return (Some keys) ->
  run = for_each
          (tentativa_body server localidade servico ano mes (payload ano mes keys))
          exceeded (py_range 1 (tentativas + 1)).
Proof.
  intros Hkeys. unfold listar_orcamentos.
  destruct (get_app_keys_cases environ localidade servico)
    as [(msg & Hg & _)|(k & s & _ & _ & _ & _ & Hg)];
    rewrite Hg in *; simpl in Hkeys; [discriminate|].
  injection Hkeys as <-. unfold bind at 1.
  now destruct (for_each _ _ _).
Qed.

Lemma listar_unresolved :
  result (get_app_keys environ localidade servico) = Return None ->
  exists msg,
    run = ([LogWarning msg;
            StError ("Credenciais não encontradas para "
                     +:+ localidade +:+ " / " +:+ servico)],
           Return empty_DataFrame).
Proof.
  intros Hkeys. unfold listar_orcamentos.
  destruct (get_app_keys_cases environ localidade servico)
    as [(msg & Hg & _)|(k & s & _ & _ & _ & _ & Hg)];
    rewrite Hg in *; simpl in Hkeys; [|discriminate].
  exists msg. reflexivity.
Qed.

Lemma get_app_keys_result :
  result (get_app_keys environ localidade servico) = Return None \/
  exists keys, result (get_app_keys environ localidade servico) = Return (Some keys).
Proof.
  destruct (get_app_keys_cases environ localidade servico)
    as [(msg & Hg & _)|(k & s & _ & _ & _ & _ & Hg)]; rewrite Hg; simpl; eauto.
Qed.

(** An attempt that took place had credentials and a place in the range. *)
Lemma attempt_made_resolved (n : Z) :
  1 <= n -> attempt_made (trace run) n ->
  exists keys,
    result (get_app_keys environ localidade servico) = Return (Some keys) /\
    n <= tentativas.
Proof.
  unfold attempt_made. intros Hn Hmade.
  destruct get_app_keys_result as [Hnone|[keys Hkeys]].
  - destruct (listar_unresolved Hnone) as [msg Hrun].
    rewrite Hrun in Hmade. simpl in Hmade. unfold count_posts in Hmade.
    simpl in Hmade. lia.
  - exists keys. split; [exact Hkeys|].
    rewrite (listar_resolved keys Hkeys) in Hmade.
    pose proof (for_each_count_posts_le _ exceeded
                  (attempt_one_post server localidade servico ano mes
                     (payload ano mes keys))
                  (py_range 1 (tentativas + 1))) as Hle.
    rewrite py_range_length in Hle.
    change (count_posts (trace exceeded)) with 0%nat in Hle. lia.
Qed.

(** The attempts before one that took place were all sent back by the
    busy fault. *)
Lemma attempt_made_prefix (keys : AppKeysConfig) (n : Z) :
  result (get_app_keys environ localidade servico) = Return (Some keys) ->
  1 <= n <= tentativas -> attempt_made (trace run) n ->
  py_range 1 (tentativas + 1) !! (Z.to_nat (n - 1)) = Some n /\
  take (Z.to_nat (n - 1)) (py_range 1 (tentativas + 1)) = py_range 1 n /\
  Forall (continues
            (tentativa_body server localidade servico ano mes (payload ano mes keys)))
         (py_range 1 n).
Proof.
  intros Hkeys Hn Hmade. unfold attempt_made in Hmade.
  rewrite (listar_resolved keys Hkeys) in Hmade.
  assert (Hlook : py_range 1 (tentativas + 1) !! (Z.to_nat (n - 1)) = Some n).
  { rewrite py_range_lookup by lia. f_equal. lia. }
  assert (Htake : take (Z.to_nat (n - 1)) (py_range 1 (tentativas + 1))
                  = py_range 1 n).
  { rewrite py_range_take by lia. f_equal. lia. }
  split; [exact Hlook|]. split; [exact Htake|].
  rewrite <- Htake. eapply for_each_reached.
  - apply attempt_one_post.
  - eapply Nat.lt_le_trans; [|exact Hmade]. lia.
  - rewrite py_range_length. lia.
Qed.

End Run.

(** ** The resolvers on any text and any platform *)

Section PlatformFacts.

Variable str_upper : string -> string.
Variable fs_encodable : string -> bool.
Variable email_str : string -> option string.
Variable environ : gmap string string.
Variables localidade servico : string.

Local Abbreviation name suffix :=
  (str_upper localidade +:+ "_" +:+ str_upper servico +:+ suffix).

Lemma environ_wf_lookup (n v : string) :
  environ_wf fs_encodable environ -> environ !! n = Some v ->
  fs_encodable n = true.
Proof. intros Hwf Hn. apply Hwf. rewrite Hn. eauto. Qed.

(** A name that cannot be encoded: [os.getenv] raises before anything
    is logged. *)
Lemma platform_app_keys_unencodable :
  fs_encodable (name "_APP_KEY") = false \/
  fs_encodable (name "_APP_SECRET") = false ->
  Platform.get_app_keys str_upper fs_encodable environ localidade servico
  = ([], Raise UnicodeEncodeError).
Proof.
  intros H. unfold Platform.get_app_keys, Platform.os_getenv.
  destruct (fs_encodable (name "_APP_KEY")) eqn:Hk; [|reflexivity].
  destruct H as [H|H]; [discriminate|]. now rewrite H.
Qed.

Lemma platform_email_unencodable :
  fs_encodable (name "_EMAIL") = false \/
  fs_encodable (name "_SENHA") = false ->
  Platform.get_email_config str_upper fs_encodable email_str environ
    localidade servico
  = ([], Raise UnicodeEncodeError).
Proof.
  intros H. unfold Platform.get_email_config, Platform.os_getenv.
  destruct (fs_encodable (name "_EMAIL")) eqn:Hk; [|reflexivity].
  destruct H as [H|H]; [discriminate|]. now rewrite H.
Qed.

(** The two ways [get_app_keys] can end when both names can be
    encoded. *)
Lemma platform_app_keys_cases :
  fs_encodable (name "_APP_KEY") = true ->
  fs_encodable (name "_APP_SECRET") = true ->
  (exists msg,
      Platform.get_app_keys str_upper fs_encodable environ localidade servico
      = ([LogWarning msg], Return None) /\
      (truthy_opt_str (environ !! name "_APP_KEY") = false \/
       truthy_opt_str (environ !! name "_APP_SECRET") = false)) \/
  (exists k s,
      environ !! name "_APP_KEY" = Some k /\
      environ !! name "_APP_SECRET" = Some s /\
      k <> "" /\ s <> "" /\
      Platform.get_app_keys str_upper fs_encodable environ localidade servico
      = ([], Return (Some (mkAppKeysConfig k s)))).
Proof.
  intros Hk Hs. unfold Platform.get_app_keys, Platform.os_getenv.
  rewrite Hk, Hs. cbn [ret bind app].
  destruct (truthy_opt_str (environ !! name "_APP_KEY")) eqn:Tk; simpl.
  - destruct (truthy_opt_str (environ !! name "_APP_SECRET")) eqn:Ts; simpl.
    + right. apply truthy_opt_str_true in Tk as (k & Ek & Nk).
      apply truthy_opt_str_true in Ts as (s0 & Es & Ns).
      exists k, s0. rewrite Ek, Es. repeat split; auto.
      now rewrite new_AppKeysConfig_ok.
    + left. eexists. split; [reflexivity|]. now right.
  - left. eexists. split; [reflexivity|]. now left.
Qed.

(** The three ways [get_email_config] can end when both names can be
    encoded. *)
Lemma platform_email_cases :
  fs_encodable (name "_EMAIL") = true ->
  fs_encodable (name "_SENHA") = true ->
  (exists msg,
      Platform.get_email_config str_upper fs_encodable email_str environ
        localidade servico
      = ([LogWarning msg], Return None) /\
      (truthy_opt_str (environ !! name "_EMAIL") = false \/
       truthy_opt_str (environ !! name "_SENHA") = false)) \/
  (exists e s,
      environ !! name "_EMAIL" = Some e /\
      environ !! name "_SENHA" = Some s /\
      e <> "" /\ s <> "" /\
      ((exists normalised,
          email_str e = Some normalised /\
          Platform.get_email_config str_upper fs_encodable email_str environ
            localidade servico
          = ([], Return (Some (mkEmailConfig normalised s)))) \/
       (email_str e = None /\
        exists msg,
          Platform.get_email_config str_upper fs_encodable email_str environ
            localidade servico
          = ([LogError msg], Return None)))).
Proof.
  intros Hk Hs. unfold Platform.get_email_config, Platform.os_getenv.
  rewrite Hk, Hs. cbn [ret bind app].
  destruct (truthy_opt_str (environ !! name "_EMAIL")) eqn:Te; simpl.
  - destruct (truthy_opt_str (environ !! name "_SENHA")) eqn:Ts; simpl.
    + right. apply truthy_opt_str_true in Te as (e & Ee & Ne).
      apply truthy_opt_str_true in Ts as (s0 & Es & Ns).
      exists e, s0. rewrite Ee, Es. repeat split; auto.
      unfold Platform.new_EmailConfig, Platform.field_EmailStr.
      rewrite (field_min_length_1_ok _ s0 Ns). simpl.
      destruct (email_str e) as [n|]; simpl; [left|right]; eauto.
    + left. eexists. split; [reflexivity|]. now right.
  - left. eexists. split; [reflexivity|]. now left.
Qed.

End PlatformFacts.

(** On ASCII text, on a platform that encodes every name, and with a
    validation that gives the address back as it is, the resolvers of
    [Platform] are those of [Credenciais]. *)
Lemma platform_get_app_keys_ascii (environ : gmap string string)
    (localidade servico : string) :
  Platform.get_app_keys upper (fun _ => true) environ localidade servico
  = get_app_keys environ localidade servico.
Proof.
  unfold Platform.get_app_keys, Platform.os_getenv, get_app_keys.
  destruct (environ !! _) as [[|a k]|], (environ !! _) as [[|b s]|];
    reflexivity.
Qed.

Lemma platform_get_email_config_ascii (email_str_ok : string -> bool)
    (environ : gmap string string) (localidade servico : string) :
  Platform.get_email_config upper (fun _ => true)
    (fun e => if email_str_ok e then Some e else None)
    environ localidade servico
  = get_email_config email_str_ok environ localidade servico.
Proof.
  unfold Platform.get_email_config, Platform.os_getenv, get_email_config,
    Platform.new_EmailConfig, new_EmailConfig, Platform.field_EmailStr,
    field_EmailStr.
  destruct (environ !! _) as [[|a k]|], (environ !! _) as [[|b s]|];
    try reflexivity.
  cbn. destruct (email_str_ok (String a k)); reflexivity.
Qed.

(** ** The other resolvers *)

Lemma truthy_opt_str_Some (s : string) :
  s <> "" -> truthy_opt_str (Some s) = true.
Proof. intros H. apply truthy_opt_str_true. eauto. Qed.

Lemma upper_app (a b : string) : upper (a +:+ b) = upper a +:+ upper b.
Proof.
  induction a as [|c a IH]; [reflexivity|].
  change (String (upper_char c) (upper (a +:+ b))
          = String (upper_char c) (upper a +:+ upper b)).
  now rewrite IH.
Qed.

Lemma string_app_assoc (a b c : string) : (a +:+ b) +:+ c = a +:+ (b +:+ c).
Proof.
  induction a as [|x a IH]; [reflexivity|].
  change (String x ((a +:+ b) +:+ c) = String x (a +:+ b +:+ c)).
  now rewrite IH.
Qed.

Lemma py_all_true (vs : list (option string)) :
  py_all vs = true <-> Forall (fun v => exists s, v = Some s /\ s <> "") vs.
Proof.
  unfold py_all. rewrite forallb_forall, List.Forall_forall.
  split; intros H v Hv; apply truthy_opt_str_true, H, Hv.
Qed.

Lemma py_all_false (vs : list (option string)) :
  py_all vs = false <-> Exists (fun v => v = None \/ v = Some "") vs.
Proof.
  unfold py_all. induction vs as [|v vs IH]; simpl.
  - split; [discriminate|]. intros H. inversion H.
  - rewrite andb_false_iff, IH, truthy_opt_str_false. split.
    + intros [H|H]; [now left|now right].
    + intros H. inversion H; subst; auto.
Qed.

(** The three ways [get_email_config] can end. *)
Lemma get_email_config_cases (email_str_ok : string -> bool)
    (environ : gmap string string) (localidade servico : string) :
  (exists msg,
      get_email_config email_str_ok environ localidade servico
      = ([LogWarning msg], Return None) /\
      (truthy_opt_str
         (environ !! (upper localidade +:+ "_" +:+ upper servico +:+ "_EMAIL")) = false \/
       truthy_opt_str
         (environ !! (upper localidade +:+ "_" +:+ upper servico +:+ "_SENHA")) = false)) \/
  (exists e s,
      environ !! (upper localidade +:+ "_" +:+ upper servico +:+ "_EMAIL") = Some e /\
      environ !! (upper localidade +:+ "_" +:+ upper servico +:+ "_SENHA") = Some s /\
      e <> "" /\ s <> "" /\
      ((email_str_ok e = true /\
        get_email_config email_str_ok environ localidade servico
        = ([], Return (Some (mkEmailConfig e s)))) \/
       (email_str_ok e = false /\
        exists msg,
          get_email_config email_str_ok environ localidade servico
          = ([LogError msg], Return None)))).
Proof.
  unfold get_email_config.
  set (email := environ !! _). set (senha := environ !! _).
  destruct (truthy_opt_str email) eqn:He; simpl.
  - destruct (truthy_opt_str senha) eqn:Hs; simpl.
    + right. apply truthy_opt_str_true in He as (e & -> & Hene).
      apply truthy_opt_str_true in Hs as (s0 & -> & Hsne).
      exists e, s0. repeat split; auto.
      unfold new_EmailConfig, field_EmailStr.
      rewrite (field_min_length_1_ok _ s0 Hsne).
      destruct (email_str_ok e); simpl; [left|right]; split; eauto.
    + left. eexists. split; [reflexivity|]. now right.
  - left. eexists. split; [reflexivity|]. now left.
Qed.

(** The three ways [get_imap_config] can end. *)
Lemma get_imap_config_cases (int_str : string -> option Z)
    (environ : gmap string string) :
  (exists msg,
      get_imap_config int_str environ = ([LogWarning msg], Return None) /\
      (truthy_opt_str (environ !! "SERVIDOR") = false \/
       truthy_opt_str (environ !! "PORTA") = false)) \/
  (exists host texto,
      environ !! "SERVIDOR" = Some host /\ environ !! "PORTA" = Some texto /\
      host <> "" /\ texto <> "" /\
      ((exists n,
          int_str texto = Some n /\
          get_imap_config int_str environ
          = ([], Return (Some (<["porta" := JInt n]>
                                 (<["servidor" := JStr host]> ∅))))) \/
       (int_str texto = None /\
        exists msg,
          get_imap_config int_str environ = ([LogError msg], Return None)))).
Proof.
  unfold get_imap_config.
  destruct (truthy_opt_str (environ !! "SERVIDOR")) eqn:Hh; simpl.
  - destruct (truthy_opt_str (environ !! "PORTA")) eqn:Hp; simpl.
    + right. apply truthy_opt_str_true in Hh as (host & Hh & Hhne).
      apply truthy_opt_str_true in Hp as (texto & Hp & Hpne).
      exists host, texto. rewrite Hh, Hp. repeat split; auto.
      destruct (int_str texto) as [n|]; simpl; [left|right]; eauto.
    + left. eexists. split; [reflexivity|]. now right.
  - left. eexists. split; [reflexivity|]. now left.
Qed.

(** ** The whole fetch, with credentials *)

Lemma zfill_two_digits (m : Z) :
  0 <= m < 100 -> zfill 2 (str_int m) = two_digits m.
Proof.
  intros Hm.
  assert (Hall : forallb
            (fun i => String.eqb (zfill 2 (str_int i)) (two_digits i))
            (py_range 0 100) = true) by (vm_compute; reflexivity).
  rewrite forallb_forall in Hall. apply String.eqb_eq, Hall.
  apply (py_range_Forall_inv (fun t => In t (py_range 0 100)) 0 100);
    [|exact Hm].
  apply List.Forall_forall. auto.
Qed.

Section RunFacts.

Variable server : Server.
Variables localidade servico : string.
Variables ano mes : Z.
Variable environ : gmap string string.
Variable tentativas : Z.
Variable keys : AppKeysConfig.

Hypothesis resolved :
  result (get_app_keys environ localidade servico) = Return (Some keys).

Local Abbreviation run :=
  (listar_orcamentos server localidade servico ano mes environ tentativas).

Local Abbreviation attempt :=
  (tentativa_body server localidade servico ano mes (payload ano mes keys)).

Lemma traces_of_no_error (vs : list Z) :
  Forall (continues attempt) vs -> no_error (traces_of attempt vs).
Proof.
  induction 1 as [|v rest Hv _ IH]; [constructor|].
  unfold traces_of. simpl. apply no_error_app. split; [|exact IH].
  now apply attempt_continues_trace.
Qed.

(** Attempts [1 .. n-1] meet the busy fault and attempt [n] returns a
    table: the fetch ends there. *)
Lemma listar_stops_at (n : Z) (df : DataFrame) :
  1 <= n <= tentativas ->
  Forall (continues attempt) (py_range 1 n) ->
  result (attempt n) = Return (Some df) ->
  run = (traces_of attempt (py_range 1 n) ++ trace (attempt n), Return df).
Proof.
  intros Hn Hpre Hres. rewrite (listar_resolved _ _ _ _ _ _ _ keys resolved).
  assert (Htake : take (Z.to_nat (n - 1)) (py_range 1 (tentativas + 1))
                  = py_range 1 n).
  { rewrite py_range_take by lia. f_equal. lia. }
  rewrite <- Htake in *.
  apply for_each_returns; [|exact Hpre|exact Hres].
  rewrite py_range_lookup by lia. f_equal. lia.
Qed.

Lemma count_posts_prefix (n : Z) :
  count_posts (traces_of attempt (py_range 1 n)) = Z.to_nat (n - 1).
Proof.
  rewrite count_posts_traces_of by apply attempt_one_post.
  apply py_range_length.
Qed.

(** Attempts [1 .. n-1] meet the busy fault and attempt [n] raises: the
    exception leaves the fetch. *)
Lemma listar_raises_at (n : Z) (e : exn) :
  1 <= n <= tentativas ->
  Forall (continues attempt) (py_range 1 n) ->
  result (attempt n) = Raise e ->
  run = (traces_of attempt (py_range 1 n) ++ trace (attempt n), Raise e).
Proof.
  intros Hn Hpre Hres. rewrite (listar_resolved _ _ _ _ _ _ _ keys resolved).
  assert (Htake : take (Z.to_nat (n - 1)) (py_range 1 (tentativas + 1))
                  = py_range 1 n).
  { rewrite py_range_take by lia. f_equal. lia. }
  rewrite <- Htake in *.
  apply for_each_raises; [|exact Hpre|exact Hres].
  rewrite py_range_lookup by lia. f_equal. lia.
Qed.

End RunFacts.

(** * Verified properties *)

(** ** The resolver *)

(** C8.  For a locality and a service whose variable names can be
    encoded for the lookup in the environment, neither resolver lets an
    exception escape, and each returns [None] when one of its two
    variables is unset or empty.  A name that cannot be encoded makes
    [os.getenv] raise [UnicodeEncodeError], which leaves the resolver. *)
Theorem C8_resolver_absence_encodable
    (str_upper : string -> string) (fs_encodable : string -> bool)
    (email_str : string -> option string)
    (environ : gmap string string) (localidade servico : string) :
  (fs_encodable
     (str_upper localidade +:+ "_" +:+ str_upper servico +:+ "_APP_KEY") = true ->
   fs_encodable
     (str_upper localidade +:+ "_" +:+ str_upper servico +:+ "_APP_SECRET") = true ->
   (exists r,
       result (Platform.get_app_keys str_upper fs_encodable environ
                 localidade servico) = Return r) /\
   (unset_or_empty environ
      (str_upper localidade +:+ "_" +:+ str_upper servico +:+ "_APP_KEY") \/
    unset_or_empty environ
      (str_upper localidade +:+ "_" +:+ str_upper servico +:+ "_APP_SECRET") ->
    result (Platform.get_app_keys str_upper fs_encodable environ
              localidade servico) = Return None)) /\
  (fs_encodable
     (str_upper localidade +:+ "_" +:+ str_upper servico +:+ "_EMAIL") = true ->
   fs_encodable
     (str_upper localidade +:+ "_" +:+ str_upper servico +:+ "_SENHA") = true ->
   (exists r,
       result (Platform.get_email_config str_upper fs_encodable email_str
                 environ localidade servico) = Return r) /\
   (unset_or_empty environ
      (str_upper localidade +:+ "_" +:+ str_upper servico +:+ "_EMAIL") \/
    unset_or_empty environ
      (str_upper localidade +:+ "_" +:+ str_upper servico +:+ "_SENHA") ->
    result (Platform.get_email_config str_upper fs_encodable email_str
              environ localidade servico) = Return None)) /\
  (fs_encodable
     (str_upper localidade +:+ "_" +:+ str_upper servico +:+ "_APP_KEY") = false \/
   fs_encodable
     (str_upper localidade +:+ "_" +:+ str_upper servico +:+ "_APP_SECRET") = false ->
   result (Platform.get_app_keys str_upper fs_encodable environ
             localidade servico) = Raise UnicodeEncodeError) /\
  (fs_encodable
     (str_upper localidade +:+ "_" +:+ str_upper servico +:+ "_EMAIL") = false \/
   fs_encodable
     (str_upper localidade +:+ "_" +:+ str_upper servico +:+ "_SENHA") = false ->
   result (Platform.get_email_config str_upper fs_encodable email_str
             environ localidade servico) = Raise UnicodeEncodeError).
Proof.
  split; [|split; [|split]].
  - intros Hk Hs.
    destruct (platform_app_keys_cases str_upper fs_encodable environ
                localidade servico Hk Hs)
      as [(msg & Hg & Hmiss)|(k & s & Ek & Es & Nk & Ns & Hg)];
      rewrite Hg; cbn [result snd]; (split; [eauto|]).
    + reflexivity.
    + intros Hu. rewrite !unset_or_empty_truthy, Ek, Es in Hu.
      rewrite !truthy_opt_str_Some in Hu by assumption.
      destruct Hu; discriminate.
  - intros Hk Hs.
    destruct (platform_email_cases str_upper fs_encodable email_str environ
                localidade servico Hk Hs)
      as [(msg & Hg & Hmiss)
         |(e & s & Ee & Es & Ne & Ns
           & [(n & Hn & Hg)|(Hbad & msg & Hg)])];
      rewrite Hg; cbn [result snd]; (split; [eauto|]).
    + reflexivity.
    + intros Hu. rewrite !unset_or_empty_truthy, Ee, Es in Hu.
      rewrite !truthy_opt_str_Some in Hu by assumption.
      destruct Hu; discriminate.
    + reflexivity.
  - intros H. now rewrite platform_app_keys_unencodable.
  - intros H. now rewrite platform_email_unencodable.
Qed.

Lemma C8_resolver_absence_encodable_witness :
  result (Platform.get_app_keys upper posix_encodable environ_empty_secret
            "pinheirinho" "cartao") = Return None /\
  result (Platform.get_email_config upper posix_encodable email_str_example
            environ_pinheirinho "pinheirinho" "cartao") = Return None.
Proof.
  destruct (C8_resolver_absence_encodable upper posix_encodable
              email_str_example environ_empty_secret "pinheirinho" "cartao")
    as (Hkeys & _ & _ & _).
  destruct (C8_resolver_absence_encodable upper posix_encodable
              email_str_example environ_pinheirinho "pinheirinho" "cartao")
    as (_ & Hemail & _ & _).
  split.
  - apply Hkeys; [reflexivity|reflexivity|]. right. right. reflexivity.
  - apply Hemail; [reflexivity|reflexivity|]. left. left. reflexivity.
Defined.

(** C8, as it was stated, fails: for the locality U+D800, a lone
    surrogate, on a POSIX platform, the name of the variable cannot be
    encoded and [get_app_keys] ends with [UnicodeEncodeError] instead of
    returning. *)
Lemma C8_counterexample_lone_surrogate :
  Platform.get_app_keys upper posix_encodable ∅ lone_surrogate "cartao"
  = ([], Raise UnicodeEncodeError) /\
  ~ (exists r,
        result (Platform.get_app_keys upper posix_encodable ∅
                  lone_surrogate "cartao") = Return r).
Proof.
  assert (H : Platform.get_app_keys upper posix_encodable ∅
                lone_surrogate "cartao" = ([], Raise UnicodeEncodeError))
    by (vm_compute; reflexivity).
  split; [exact H|]. rewrite H. intros [r Hr]. discriminate.
Qed.





(** ** The fetcher *)

(** C1.  With at most 3 attempts: attempts 1 and 2 answered by the busy
    fault and attempt 3 by a status-200 body without that fault whose
    result list has one entry.  The fetcher returns a table of exactly
    one row and posts exactly 3 requests. *)
Theorem C1_busy_twice_then_one_entry (server : Server)
    (localidade servico : string) (ano mes : Z)
    (environ : gmap string string) (keys : AppKeysConfig)
    (r1 r2 r3 : Response) (fields : list (string * json)) (entry : json) :
  result (get_app_keys environ localidade servico) = Return (Some keys) ->
  server 1 = Return r1 -> busy_response r1 ->
  server 2 = Return r2 -> busy_response r2 ->
  server 3 = Return r3 -> status_code r3 = 200 ->
  body r3 = Some (JObj fields) ->
  has_fault_8020 (JObj fields) = Return false ->
  dict_get "ListaOrcamentos" fields = Some (JArr [entry]) ->
  exists df,
    result (listar_orcamentos server localidade servico ano mes environ 3)
    = Return df /\
    df_len df = 1%nat /\
    df_empty df = false /\
    count_posts
      (trace (listar_orcamentos server localidade servico ano mes environ 3))
    = 3%nat.
Proof.
  intros Hkeys H1 Hb1 H2 Hb2 H3 H200 Hbody Hfault Hlist.
  set (attempt :=
         tentativa_body server localidade servico ano mes (payload ano mes keys)).
  assert (Hpre : Forall (continues attempt) (py_range 1 3)).
  { change (py_range 1 3) with [1; 2].
    repeat constructor; apply attempt_continues_iff;
      eauto using busy_response_retried. }
  assert (Hget : py_get (JObj fields) "ListaOrcamentos" (JArr [])
                 = Return (JArr [entry])).
  { unfold py_get. now rewrite Hlist. }
  pose proof (attempt_success server localidade servico ano mes
                (payload ano mes keys) 3 r3 _ _ H3 H200 Hbody Hfault Hget)
    as Hthree.
  simpl in Hthree. fold attempt in Hthree.
  pose proof (listar_stops_at server localidade servico ano mes environ
                3 keys Hkeys 3 _ ltac:(lia) Hpre
                ltac:(fold attempt; rewrite Hthree; reflexivity)) as Hrun.
  fold attempt in Hrun. rewrite Hthree in Hrun. cbn [trace fst] in Hrun.
  eexists. rewrite Hrun. cbn [trace result fst snd].
  split; [reflexivity|]. split; [reflexivity|]. split.
  - simpl. rewrite bool_decide_eq_false_2; [reflexivity|].
    apply insert_non_empty.
  - rewrite count_posts_app.
    unfold attempt.
    rewrite (count_posts_prefix server localidade servico ano mes keys 3).
    reflexivity.
Qed.

Lemma C1_busy_twice_then_one_entry_witness :
  exists df,
    result (listar_orcamentos server_busy_twice "pinheirinho" "cartao" 2024 5
              environ_pinheirinho 3) = Return df /\
    df_len df = 1%nat /\
    df_empty df = false /\
    count_posts
      (trace (listar_orcamentos server_busy_twice "pinheirinho" "cartao" 2024 5
                environ_pinheirinho 3)) = 3%nat.
Proof.
  apply (C1_busy_twice_then_one_entry server_busy_twice "pinheirinho" "cartao"
           2024 5 environ_pinheirinho
           {| app_key := "k123"; app_secret := "s456" |}
           busy_fault busy_fault one_entry
           [("ListaOrcamentos",
             JArr [JObj [("cDesCateg", JStr "Receitas");
                         ("nValorPrevisto", JInt 100);
                         ("nValorRealizado", JInt 80)]])]
           (JObj [("cDesCateg", JStr "Receitas");
                  ("nValorPrevisto", JInt 100);
                  ("nValorRealizado", JInt 80)])).
  - vm_compute. reflexivity.
  - reflexivity.
  - split; [reflexivity|].
    exists [("faultstring", JStr "Consumo redundante");
            ("faultcode", JStr "SOAP-ENV:Client-8020")], "SOAP-ENV:Client-8020".
    repeat split.
  - reflexivity.
  - split; [reflexivity|].
    exists [("faultstring", JStr "Consumo redundante");
            ("faultcode", JStr "SOAP-ENV:Client-8020")], "SOAP-ENV:Client-8020".
    repeat split.
  - reflexivity.
  - reflexivity.
  - reflexivity.
  - reflexivity.
  - reflexivity.
Defined.

(** C2.  Every attempt, from 1 to the maximum, is answered by the busy
    fault: the fetcher returns the empty table, the last thing it does
    is to show the attempts-exceeded error, nothing before that is an
    error, and it has posted one request for each attempt. *)
Theorem C2_always_busy (server : Server)
    (localidade servico : string) (ano mes : Z)
    (environ : gmap string string) (tentativas : Z) (keys : AppKeysConfig) :
  result (get_app_keys environ localidade servico) = Return (Some keys) ->
  (forall t, 1 <= t <= tentativas ->
             exists r, server t = Return r /\ busy_response r) ->
  result (listar_orcamentos server localidade servico ano mes environ tentativas)
  = Return empty_DataFrame /\
  exists before,
    trace (listar_orcamentos server localidade servico ano mes environ tentativas)
    = before ++ [exceeded_error localidade servico] /\
    no_error before /\
    count_posts before = Z.to_nat tentativas.
Proof.
  intros Hkeys Hbusy.
  set (attempt :=
         tentativa_body server localidade servico ano mes (payload ano mes keys)).
  assert (Hall : Forall (continues attempt) (py_range 1 (tentativas + 1))).
  { apply py_range_Forall. intros t Ht.
    destruct (Hbusy t ltac:(lia)) as (r & Hs & Hb).
    apply attempt_continues_iff. eauto using busy_response_retried. }
  rewrite (listar_resolved _ _ _ _ _ _ _ keys Hkeys). fold attempt.
  rewrite (for_each_exhausted attempt _ _ Hall).
  split; [reflexivity|].
  exists (traces_of attempt (py_range 1 (tentativas + 1))).
  split; [reflexivity|]. split.
  - now apply (traces_of_no_error server localidade servico ano mes keys).
  - unfold attempt.
    rewrite (count_posts_prefix server localidade servico ano mes keys).
    f_equal. lia.
Qed.

Lemma C2_always_busy_witness :
  result (listar_orcamentos server_always_busy "pinheirinho" "cartao" 2024 5
            environ_pinheirinho tentativas_default) = Return empty_DataFrame /\
  exists before,
    trace (listar_orcamentos server_always_busy "pinheirinho" "cartao" 2024 5
             environ_pinheirinho tentativas_default)
    = before ++ [exceeded_error "pinheirinho" "cartao"] /\
    no_error before /\
    count_posts before = Z.to_nat tentativas_default.
Proof.
  apply (C2_always_busy server_always_busy "pinheirinho" "cartao" 2024 5
           environ_pinheirinho tentativas_default
           {| app_key := "k123"; app_secret := "s456" |}).
  - vm_compute. reflexivity.
  - intros t _. exists busy_fault. split; [reflexivity|].
    split; [reflexivity|].
    exists [("faultstring", JStr "Consumo redundante");
            ("faultcode", JStr "SOAP-ENV:Client-8020")], "SOAP-ENV:Client-8020".
    repeat split.
Defined.

(** C3.  In any fetch, if attempt number [n] took place and was
    answered with a status other than 200, the fetcher returns the empty
    table, the last thing it does is to show the error with that status,
    and request [n] is the last one posted.  In particular, with
    credentials resolved and at least one attempt allowed, a 404 on
    attempt 1 gives the empty table after exactly one request. *)
Theorem C3_status_not_200 (server : Server)
    (localidade servico : string) (ano mes : Z)
    (environ : gmap string string) (tentativas : Z) :
  (forall n r,
      1 <= n ->
      attempt_made
        (trace (listar_orcamentos server localidade servico ano mes environ
                  tentativas)) n ->
      server n = Return r -> status_code r <> 200 ->
      result (listar_orcamentos server localidade servico ano mes environ
                tentativas) = Return empty_DataFrame /\
      last (trace (listar_orcamentos server localidade servico ano mes environ
                     tentativas)) = Some (status_error localidade servico r) /\
      count_posts
        (trace (listar_orcamentos server localidade servico ano mes environ
                  tentativas)) = Z.to_nat n) /\
  (forall keys r,
      result (get_app_keys environ localidade servico) = Return (Some keys) ->
      1 <= tentativas ->
      server 1 = Return r -> status_code r = 404 ->
      result (listar_orcamentos server localidade servico ano mes environ
                tentativas) = Return empty_DataFrame /\
      last (trace (listar_orcamentos server localidade servico ano mes environ
                     tentativas)) = Some (status_error localidade servico r) /\
      count_posts
        (trace (listar_orcamentos server localidade servico ano mes environ
                  tentativas)) = 1%nat).
Proof.
  assert (Hstop : forall keys n r,
    result (get_app_keys environ localidade servico) = Return (Some keys) ->
    1 <= n <= tentativas ->
    Forall (continues (tentativa_body server localidade servico ano mes
                         (payload ano mes keys))) (py_range 1 n) ->
    server n = Return r -> status_code r <> 200 ->
    result (listar_orcamentos server localidade servico ano mes environ
              tentativas) = Return empty_DataFrame /\
    last (trace (listar_orcamentos server localidade servico ano mes environ
                   tentativas)) = Some (status_error localidade servico r) /\
    count_posts
      (trace (listar_orcamentos server localidade servico ano mes environ
                tentativas)) = Z.to_nat n).
  { intros keys n r Hkeys Hn Hpre Hs Hstatus.
    pose proof (attempt_not_200 server localidade servico ano mes
                  (payload ano mes keys) n r Hs Hstatus) as Hn200.
    rewrite (listar_stops_at server localidade servico ano mes environ
               tentativas keys Hkeys n empty_DataFrame Hn Hpre
               ltac:(rewrite Hn200; reflexivity)).
    rewrite Hn200. cbn [trace result fst snd].
    split; [reflexivity|]. split.
    - change [Sleep (4 * n); Post url (payload ano mes keys);
              StError ("Erro " +:+ str_int (status_code r) +:+ " - "
                       +:+ text r +:+ " para " +:+ localidade +:+ " / "
                       +:+ servico)]
        with ([Sleep (4 * n); Post url (payload ano mes keys)]
              ++ [status_error localidade servico r]).
      rewrite app_assoc. apply last_snoc.
    - rewrite count_posts_app.
      rewrite (count_posts_prefix server localidade servico ano mes keys n).
      change (count_posts _) with 1%nat. lia. }
  split.
  - intros n r Hn Hmade Hs Hstatus.
    destruct (attempt_made_resolved _ _ _ _ _ _ _ n Hn Hmade)
      as (keys & Hkeys & Hle).
    destruct (attempt_made_prefix _ _ _ _ _ _ _ keys n Hkeys (conj Hn Hle) Hmade)
      as (_ & _ & Hpre).
    now apply (Hstop keys n r).
  - intros keys r Hkeys Hone Hs H404.
    apply (Hstop keys 1 r Hkeys); [lia|constructor|exact Hs|lia].
Qed.

Lemma C3_status_not_200_witness :
  result (listar_orcamentos server_not_found "pinheirinho" "cartao" 2024 5
            environ_pinheirinho 3) = Return empty_DataFrame /\
  last (trace (listar_orcamentos server_not_found "pinheirinho" "cartao" 2024 5
                 environ_pinheirinho 3))
  = Some (status_error "pinheirinho" "cartao" not_found) /\
  count_posts
    (trace (listar_orcamentos server_not_found "pinheirinho" "cartao" 2024 5
              environ_pinheirinho 3)) = 1%nat.
Proof.
  destruct (C3_status_not_200 server_not_found "pinheirinho" "cartao" 2024 5
              environ_pinheirinho 3) as [Hany Hfirst].
  assert (H404 : status_code not_found <> 200) by (simpl; lia).
  assert (Hmade : attempt_made
            (trace (listar_orcamentos server_not_found "pinheirinho" "cartao"
                      2024 5 environ_pinheirinho 3)) 1)
    by (vm_compute; lia).
  destruct (Hany 1 not_found ltac:(lia) Hmade eq_refl H404) as (Hres & Hlast & _).
  destruct (Hfirst {| app_key := "k123"; app_secret := "s456" |} not_found
              ltac:(vm_compute; reflexivity) ltac:(lia) eq_refl eq_refl)
    as (_ & _ & Hposts).
  auto.
Defined.

(** C4.  In any fetch, if attempt number [n] took place and was
    answered with status 200 by a body without the busy fault whose
    result list is absent or empty, the fetcher returns the empty table,
    its trace holds no error, and request [n] is the last one posted. *)
Theorem C4_empty_result (server : Server)
    (localidade servico : string) (ano mes : Z)
    (environ : gmap string string) (tentativas : Z)
    (n : Z) (r : Response) (fields : list (string * json)) :
  1 <= n ->
  attempt_made
    (trace (listar_orcamentos server localidade servico ano mes environ
              tentativas)) n ->
  server n = Return r -> status_code r = 200 ->
  body r = Some (JObj fields) ->
  has_fault_8020 (JObj fields) = Return false ->
  dict_get "ListaOrcamentos" fields = None \/
  dict_get "ListaOrcamentos" fields = Some (JArr []) ->
  result (listar_orcamentos server localidade servico ano mes environ tentativas)
  = Return empty_DataFrame /\
  no_error
    (trace (listar_orcamentos server localidade servico ano mes environ
              tentativas)) /\
  count_posts
    (trace (listar_orcamentos server localidade servico ano mes environ
              tentativas)) = Z.to_nat n.
Proof.
  intros Hn Hmade Hs H200 Hbody Hfault Hlist.
  destruct (attempt_made_resolved _ _ _ _ _ _ _ n Hn Hmade)
    as (keys & Hkeys & Hle).
  destruct (attempt_made_prefix _ _ _ _ _ _ _ keys n Hkeys (conj Hn Hle) Hmade)
    as (_ & _ & Hpre).
  assert (Hget : py_get (JObj fields) "ListaOrcamentos" (JArr [])
                 = Return (JArr [])).
  { unfold py_get. destruct Hlist as [-> | ->]; reflexivity. }
  pose proof (attempt_success server localidade servico ano mes
                (payload ano mes keys) n r _ _ Hs H200 Hbody Hfault Hget)
    as Hempty.
  simpl in Hempty.
  rewrite (listar_stops_at server localidade servico ano mes environ
             tentativas keys Hkeys n empty_DataFrame (conj Hn Hle) Hpre
             ltac:(rewrite Hempty; reflexivity)).
  rewrite Hempty. cbn [trace result fst snd].
  split; [reflexivity|]. split.
  - apply no_error_app. split.
    + now apply (traces_of_no_error server localidade servico ano mes keys).
    + repeat constructor.
  - rewrite count_posts_app.
    rewrite (count_posts_prefix server localidade servico ano mes keys n).
    change (count_posts _) with 1%nat. lia.
Qed.

Lemma C4_empty_result_witness :
  result (listar_orcamentos server_busy_then_empty "pinheirinho" "cartao"
            2024 5 environ_pinheirinho 3) = Return empty_DataFrame /\
  no_error
    (trace (listar_orcamentos server_busy_then_empty "pinheirinho" "cartao"
              2024 5 environ_pinheirinho 3)) /\
  count_posts
    (trace (listar_orcamentos server_busy_then_empty "pinheirinho" "cartao"
              2024 5 environ_pinheirinho 3)) = Z.to_nat 2.
Proof.
  apply (C4_empty_result server_busy_then_empty "pinheirinho" "cartao"
           2024 5 environ_pinheirinho 3 2 no_entry
           [("ListaOrcamentos", JArr [])]).
  - lia.
  - vm_compute. lia.
  - reflexivity.
  - reflexivity.
  - reflexivity.
  - reflexivity.
  - right. reflexivity.
Defined.

(** C5.  Every row of a table returned by the fetcher carries the four
    tag columns with the values of the query: [ano] is the year, [mes]
    is the month padded with zeros to two characters, [localidade] and
    [servico] are the two names.  For a month from 0 to 99 the padded
    text is the month written with two decimal digits. *)
Theorem C5_rows_tagged (server : Server)
    (localidade servico : string) (ano mes : Z)
    (environ : gmap string string) (tentativas : Z) (df : DataFrame) :
  result (listar_orcamentos server localidade servico ano mes environ tentativas)
  = Return df ->
  Forall (tagged localidade servico ano mes) df /\
  (0 <= mes < 100 -> zfill 2 (str_int mes) = two_digits mes).
Proof.
  intros Hres. split; [|apply zfill_two_digits].
  destruct (get_app_keys_result localidade servico environ)
    as [Hnone|[keys Hkeys]].
  - destruct (listar_unresolved server localidade servico ano mes environ
                tentativas Hnone) as [msg Hrun].
    rewrite Hrun in Hres. injection Hres as <-. constructor.
  - rewrite (listar_resolved _ _ _ _ _ _ _ keys Hkeys) in Hres.
    apply for_each_result in Hres as [Hafter|(v & _ & Hv)].
    + injection Hafter as <-. constructor.
    + now apply attempt_tagged in Hv.
Qed.

Lemma C5_rows_tagged_witness :
  df_len fetched_one_entry = 1%nat /\
  Forall (tagged "pinheirinho" "cartao" 2024 5) fetched_one_entry /\
  zfill 2 (str_int 5) = "05".
Proof.
  destruct (C5_rows_tagged server_busy_twice "pinheirinho" "cartao" 2024 5
              environ_pinheirinho 3 fetched_one_entry
              ltac:(vm_compute; reflexivity))
    as [Htags Hmes].
  split; [vm_compute; reflexivity|]. split; [exact Htags|].
  rewrite Hmes by lia. reflexivity.
Defined.

(** C6.  In a fetch with credentials resolved, the sleeps and the
    requests come in pairs, one pair for each attempt made, attempt
    number [t] sleeping [4 * t] seconds and then posting; there are at
    most [tentativas] attempts; and when at least one attempt is allowed
    the fetch starts by sleeping 4 seconds before its first request. *)
Theorem C6_sleep_before_post (server : Server)
    (localidade servico : string) (ano mes : Z)
    (environ : gmap string string) (tentativas : Z) (keys : AppKeysConfig) :
  result (get_app_keys environ localidade servico) = Return (Some keys) ->
  sleeps_and_posts
    (trace (listar_orcamentos server localidade servico ano mes environ
              tentativas))
  = flat_map (fun t => [Sleep (4 * t); Post url (payload ano mes keys)])
      (py_range 1
         (1 + Z.of_nat
                (count_posts
                   (trace (listar_orcamentos server localidade servico ano mes
                             environ tentativas))))) /\
  (count_posts
     (trace (listar_orcamentos server localidade servico ano mes environ
               tentativas)) <= Z.to_nat tentativas)%nat /\
  (1 <= tentativas ->
   exists rest,
     trace (listar_orcamentos server localidade servico ano mes environ
              tentativas)
     = Sleep 4 :: Post url (payload ano mes keys) :: rest).
Proof.
  intros Hkeys.
  set (attempt :=
         tentativa_body server localidade servico ano mes (payload ano mes keys)).
  rewrite (listar_resolved _ _ _ _ _ _ _ keys Hkeys). fold attempt.
  set (after := st_error _ >> ret empty_DataFrame).
  assert (Hle : (count_posts
                   (trace (for_each attempt after (py_range 1 (tentativas + 1))))
                 <= Z.to_nat tentativas)%nat).
  { pose proof (for_each_count_posts_le attempt after
                  (attempt_one_post server localidade servico ano mes
                     (payload ano mes keys))
                  (py_range 1 (tentativas + 1))) as H.
    rewrite py_range_length in H.
    change (count_posts (trace after)) with 0%nat in H. lia. }
  split; [|split; [exact Hle|]].
  - rewrite (for_each_sleeps_and_posts attempt after
               (attempt_one_post server localidade servico ano mes
                  (payload ano mes keys))
               (fun t => [Sleep (4 * t); Post url (payload ano mes keys)])
               (attempt_sleeps_and_posts server localidade servico ano mes
                  (payload ano mes keys))
               eq_refl).
    rewrite py_range_take by lia. reflexivity.
  - intros Hone.
    assert (Hrange : py_range 1 (tentativas + 1) = 1 :: py_range 2 (tentativas + 1)).
    { unfold py_range.
      replace (Z.to_nat (tentativas + 1 - 1))
        with (S (Z.to_nat (tentativas + 1 - 2))) by lia.
      simpl. f_equal. rewrite <- seq_shift, map_map.
      apply map_ext. intros i. lia. }
    rewrite Hrange, for_each_cons.
    destruct (attempt_starts server localidade servico ano mes
                (payload ano mes keys) 1) as [rest Hrest].
    fold attempt in Hrest. change (4 * 1) with 4 in Hrest.
    destruct (result (attempt 1)) as [[df|]|e]; cbn [trace fst];
      rewrite Hrest; simpl; eauto.
Qed.

Lemma C6_sleep_before_post_witness :
  sleeps_and_posts
    (trace (listar_orcamentos server_busy_twice "pinheirinho" "cartao" 2024 5
              environ_pinheirinho 3))
  = [Sleep 4; Post url (payload 2024 5 {| app_key := "k123"; app_secret := "s456" |});
     Sleep 8; Post url (payload 2024 5 {| app_key := "k123"; app_secret := "s456" |});
     Sleep 12; Post url (payload 2024 5 {| app_key := "k123"; app_secret := "s456" |})].
Proof.
  destruct (C6_sleep_before_post server_busy_twice "pinheirinho" "cartao" 2024 5
              environ_pinheirinho 3
              {| app_key := "k123"; app_secret := "s456" |}
              ltac:(vm_compute; reflexivity)) as (Hpairs & _ & _).
  rewrite Hpairs. vm_compute. reflexivity.
Defined.

(** * Further properties *)

(** ** The other resolvers of credenciais.py *)

(** X1.  In a process environment, [get_email_config] returns a
    record exactly when both variables of the upper-cased pair are set
    to non-empty values and the address passes the [EmailStr]
    validation; the record then holds the address as the validation
    normalised it and the password as it is set. *)
Theorem X1_email_config_found
    (str_upper : string -> string) (fs_encodable : string -> bool)
    (email_str : string -> option string)
    (environ : gmap string string) (localidade servico : string)
    (c : EmailConfig) :
  environ_wf fs_encodable environ ->
  (result (Platform.get_email_config str_upper fs_encodable email_str environ
             localidade servico) = Return (Some c) <->
   exists e,
     environ !! (str_upper localidade +:+ "_" +:+ str_upper servico +:+ "_EMAIL")
     = Some e /\
     environ !! (str_upper localidade +:+ "_" +:+ str_upper servico +:+ "_SENHA")
     = Some (senha c) /\
     e <> "" /\ senha c <> "" /\ email_str e = Some (email c)).
Proof.
  intros Hwf.
  destruct (fs_encodable
              (str_upper localidade +:+ "_" +:+ str_upper servico +:+ "_EMAIL"))
    eqn:Hk;
    [destruct (fs_encodable
                 (str_upper localidade +:+ "_" +:+ str_upper servico
                  +:+ "_SENHA")) eqn:Hs|].
  - destruct (platform_email_cases str_upper fs_encodable email_str environ
                localidade servico Hk Hs)
      as [(msg & Hg & Hmiss)
         |(e & s & Ee & Es & Ne & Ns
           & [(n & Hn & Hg)|(Hbad & msg & Hg)])];
      rewrite Hg; cbn [result snd]; split.
    + discriminate.
    + intros (e & Ee & Es & Ne & Ns & _). rewrite Ee, Es in Hmiss.
      rewrite !truthy_opt_str_Some in Hmiss by assumption.
      destruct Hmiss; discriminate.
    + intros [= <-]. exists e. simpl. auto 6.
    + intros (e' & Ee' & Es' & _ & _ & Hn'). destruct c as [ce cs].
      simpl in *. congruence.
    + discriminate.
    + intros (e' & Ee' & _ & _ & _ & Hn'). congruence.
  - rewrite platform_email_unencodable by now right. cbn [result snd].
    split; [discriminate|].
    intros (e & _ & Es & _).
    rewrite (environ_wf_lookup fs_encodable environ _ _ Hwf Es) in Hs.
    discriminate.
  - rewrite platform_email_unencodable by now left. cbn [result snd].
    split; [discriminate|].
    intros (e & Ee & _).
    rewrite (environ_wf_lookup fs_encodable environ _ _ Hwf Ee) in Hk.
    discriminate.
Qed.

Lemma X1_email_config_found_witness :
  result (Platform.get_email_config upper posix_encodable email_str_example
            environ_email "Pinheirinho" "cartao")
  = Return (Some {| email := "user@example.com"; senha := "pw" |}).
Proof.
  assert (Hwf : environ_wf posix_encodable environ_email).
  { intros name [v Hv]. unfold environ_email in Hv.
    rewrite lookup_insert in Hv. destruct (decide _) as [<-|_]; [reflexivity|].
    rewrite lookup_insert in Hv. destruct (decide _) as [<-|_]; [reflexivity|].
    rewrite lookup_empty in Hv. discriminate. }
  apply (X1_email_config_found upper posix_encodable email_str_example
           environ_email "Pinheirinho" "cartao"
           {| email := "user@example.com"; senha := "pw" |} Hwf).
  exists "user@EXAMPLE.COM". repeat split; discriminate.
Defined.

(** X2.  [get_email_config] logs a validation error exactly when both
    variables are set to non-empty values and the address fails the
    [EmailStr] check; it then returns [None]. *)
Theorem X2_email_config_invalid (email_str_ok : string -> bool)
    (environ : gmap string string) (localidade servico : string) :
  (exists msg,
      In (LogError msg)
         (trace (get_email_config email_str_ok environ localidade servico))) <->
  exists e s,
    environ !! (upper localidade +:+ "_" +:+ upper servico +:+ "_EMAIL") = Some e /\
    environ !! (upper localidade +:+ "_" +:+ upper servico +:+ "_SENHA") = Some s /\
    e <> "" /\ s <> "" /\ email_str_ok e = false /\
    result (get_email_config email_str_ok environ localidade servico)
    = Return None.
Proof.
  destruct (get_email_config_cases email_str_ok environ localidade servico)
    as [(msg & Hg & Hmiss)
       |(e & s & He & Hs & Hene & Hsne
         & [(Hok & Hg)|(Hbad & msg & Hg)])];
    rewrite Hg; cbn [trace result fst snd]; split.
  - intros (m & [Hin|[]]). discriminate.
  - intros (e & s & He & Hs & Hene & Hsne & _). rewrite He, Hs in Hmiss.
    rewrite !truthy_opt_str_Some in Hmiss by assumption.
    destruct Hmiss; discriminate.
  - intros (m & []).
  - intros (e' & s' & He' & _ & _ & _ & Hbad & _). congruence.
  - intros _. exists e, s. auto 10.
  - intros _. exists msg. now left.
Qed.

Lemma X2_email_config_invalid_witness :
  exists msg,
    In (LogError msg)
       (trace (get_email_config (fun _ => false) environ_global
                 "pinheirinho" "cartao")).
Proof.
  apply (X2_email_config_invalid (fun _ => false) environ_global
           "pinheirinho" "cartao").
  exists "a@example.com", "pw". repeat split; discriminate.
Defined.

(** X3.  [get_imap_config] never raises; it returns a dictionary
    exactly when SERVIDOR and PORTA are set to non-empty values and
    [int] accepts the port, and the dictionary then holds the server as
    it is and the port as an integer; it logs an error exactly when the
    port is set but is not an integer. *)
Theorem X3_imap_config (int_str : string -> option Z)
    (environ : gmap string string) :
  (exists r, result (get_imap_config int_str environ) = Return r) /\
  (forall d,
      result (get_imap_config int_str environ) = Return (Some d) <->
      exists host texto n,
        environ !! "SERVIDOR" = Some host /\ environ !! "PORTA" = Some texto /\
        host <> "" /\ texto <> "" /\ int_str texto = Some n /\
        d = <["porta" := JInt n]> (<["servidor" := JStr host]> ∅)) /\
  ((exists msg, In (LogError msg) (trace (get_imap_config int_str environ))) <->
   exists host texto,
     environ !! "SERVIDOR" = Some host /\ environ !! "PORTA" = Some texto /\
     host <> "" /\ texto <> "" /\ int_str texto = None).
Proof.
  destruct (get_imap_config_cases int_str environ)
    as [(msg & Hg & Hmiss)
       |(host & texto & Hh & Hp & Hhne & Hpne
         & [(n & Hn & Hg)|(Hbad & msg & Hg)])];
    rewrite Hg; cbn [trace result fst snd];
    (split; [eauto|split; [intros d|]; split]).
  - discriminate.
  - intros (h & t & n & Hh & Hp & Hhne & Hpne & _). rewrite Hh, Hp in Hmiss.
    rewrite !truthy_opt_str_Some in Hmiss by assumption.
    destruct Hmiss; discriminate.
  - intros (m & [Hin|[]]). discriminate.
  - intros (h & t & Hh & Hp & Hhne & Hpne & _). rewrite Hh, Hp in Hmiss.
    rewrite !truthy_opt_str_Some in Hmiss by assumption.
    destruct Hmiss; discriminate.
  - intros [= <-]. exists host, texto, n. auto 10.
  - intros (h & t & n' & Hh' & Hp' & _ & _ & Hn' & ->). congruence.
  - intros (m & []).
  - intros (h & t & _ & Hp' & _ & _ & Hbad). congruence.
  - discriminate.
  - intros (h & t & n' & _ & Hp' & _ & _ & Hn' & _). congruence.
  - intros _. exists host, texto. auto.
  - intros _. exists msg. now left.
Qed.

Lemma X3_imap_config_witness :
  result (get_imap_config (fun s => if String.eqb s "993" then Some 993 else None)
            environ_global)
  = Return (Some (<["porta" := JInt 993]>
                    (<["servidor" := JStr "imap.example.com"]> ∅))).
Proof.
  destruct (X3_imap_config
              (fun s => if String.eqb s "993" then Some 993 else None)
              environ_global) as (_ & Hfound & _).
  apply Hfound. exists "imap.example.com", "993", 993.
  repeat split; discriminate.
Defined.

(** X4.  [get_azure_config] returns [None] exactly when one of KEY1,
    KEY2, REGIAO, ENDPOINT is unset or empty; otherwise it returns the
    dictionary of the four values, none of them empty. *)
Theorem X4_azure_config (environ : gmap string string) :
  (result (get_azure_config environ) = Return None <->
   unset_or_empty environ "KEY1" \/ unset_or_empty environ "KEY2" \/
   unset_or_empty environ "REGIAO" \/ unset_or_empty environ "ENDPOINT") /\
  (forall d,
      result (get_azure_config environ) = Return (Some d) <->
      exists key1 key2 regiao endpoint,
        environ !! "KEY1" = Some key1 /\ environ !! "KEY2" = Some key2 /\
        environ !! "REGIAO" = Some regiao /\
        environ !! "ENDPOINT" = Some endpoint /\
        key1 <> "" /\ key2 <> "" /\ regiao <> "" /\ endpoint <> "" /\
        d = <["endpoint" := JStr endpoint]>
              (<["regiao" := JStr regiao]>
                 (<["key2" := JStr key2]> (<["key1" := JStr key1]> ∅)))).
Proof.
  unfold get_azure_config, unset_or_empty.
  destruct (py_all [environ !! "KEY1"; environ !! "KEY2";
                    environ !! "REGIAO"; environ !! "ENDPOINT"]) eqn:Hall;
    cbn [negb result snd bind emit ret].
  - apply py_all_true in Hall.
    inversion Hall as [|? ? (k1 & H1 & N1) Hall2]; subst.
    inversion Hall2 as [|? ? (k2 & H2 & N2) Hall3]; subst.
    inversion Hall3 as [|? ? (rg & H3 & N3) Hall4]; subst.
    inversion Hall4 as [|? ? (ep & H4 & N4) _]; subst.
    rewrite H1, H2, H3, H4. simpl. split; [split|intros d; split].
    + discriminate.
    + intros [[?|?]|[[?|?]|[[?|?]|[?|?]]]]; congruence.
    + intros [= <-]. exists k1, k2, rg, ep. auto 12.
    + intros (a & b & c & e & [= <-] & [= <-] & [= <-] & [= <-]
              & _ & _ & _ & _ & ->). reflexivity.
  - apply py_all_false in Hall. simpl. split; [split|intros d; split].
    + intros _.
      inversion Hall as [? ? H|? ? Hall2]; subst; [auto|].
      inversion Hall2 as [? ? H|? ? Hall3]; subst; [auto|].
      inversion Hall3 as [? ? H|? ? Hall4]; subst; [auto|].
      inversion Hall4 as [? ? H|? ? Hall5]; subst; [auto|].
      inversion Hall5.
    + reflexivity.
    + discriminate.
    + intros (a & b & c & e & H1 & H2 & H3 & H4 & N1 & N2 & N3 & N4 & _).
      rewrite H1, H2, H3, H4 in Hall.
      repeat (inversion Hall as [? ? [H|H]|? ? Hall']; subst;
              [discriminate|congruence|clear Hall; rename Hall' into Hall]).
      inversion Hall.
Qed.

Lemma X4_azure_config_witness :
  result (get_azure_config environ_global)
  = Return (Some (<["endpoint" := JStr "https://azure.example.com"]>
                    (<["regiao" := JStr "brazilsouth"]>
                       (<["key2" := JStr "a2"]> (<["key1" := JStr "a1"]> ∅))))) /\
  result (get_azure_config environ_pinheirinho) = Return None.
Proof.
  destruct (X4_azure_config environ_global) as [_ Hfound].
  destruct (X4_azure_config environ_pinheirinho) as [Hnone _].
  split.
  - apply Hfound.
    exists "a1", "a2", "brazilsouth", "https://azure.example.com".
    repeat split; discriminate.
  - apply Hnone. left. left. reflexivity.
Defined.

(** X5.  [get_openai_config] returns [None] exactly when one of its
    five variables is unset or empty; otherwise it returns the
    dictionary of the five values, none of them empty, the value of
    ENDPOINT_OPENAI under the key [endpoint_openai]. *)
Theorem X5_openai_config (environ : gmap string string) :
  (result (get_openai_config environ) = Return None <->
   unset_or_empty environ "ENDPOINT_OPENAI" \/
   unset_or_empty environ "MODEL_NAME" \/
   unset_or_empty environ "DEPLOYMENT" \/
   unset_or_empty environ "SUBSCRIPTION_KEY" \/
   unset_or_empty environ "API_VERSION") /\
  (forall d,
      result (get_openai_config environ) = Return (Some d) <->
      exists endpoint model_name deployment subscription_key api_version,
        environ !! "ENDPOINT_OPENAI" = Some endpoint /\
        environ !! "MODEL_NAME" = Some model_name /\
        environ !! "DEPLOYMENT" = Some deployment /\
        environ !! "SUBSCRIPTION_KEY" = Some subscription_key /\
        environ !! "API_VERSION" = Some api_version /\
        endpoint <> "" /\ model_name <> "" /\ deployment <> "" /\
        subscription_key <> "" /\ api_version <> "" /\
        d = <["api_version" := JStr api_version]>
              (<["subscription_key" := JStr subscription_key]>
                 (<["deployment" := JStr deployment]>
                    (<["model_name" := JStr model_name]>
                       (<["endpoint_openai" := JStr endpoint]> ∅))))).
Proof.
  unfold get_openai_config, unset_or_empty.
  destruct (py_all [environ !! "ENDPOINT_OPENAI"; environ !! "MODEL_NAME";
                    environ !! "DEPLOYMENT"; environ !! "SUBSCRIPTION_KEY";
                    environ !! "API_VERSION"]) eqn:Hall;
    cbn [negb result snd bind emit ret].
  - apply py_all_true in Hall.
    inversion Hall as [|? ? (v1 & H1 & N1) Hall2]; subst.
    inversion Hall2 as [|? ? (v2 & H2 & N2) Hall3]; subst.
    inversion Hall3 as [|? ? (v3 & H3 & N3) Hall4]; subst.
    inversion Hall4 as [|? ? (v4 & H4 & N4) Hall5]; subst.
    inversion Hall5 as [|? ? (v5 & H5 & N5) _]; subst.
    rewrite H1, H2, H3, H4, H5. simpl. split; [split|intros d; split].
    + discriminate.
    + intros [[?|?]|[[?|?]|[[?|?]|[[?|?]|[?|?]]]]]; congruence.
    + intros [= <-]. exists v1, v2, v3, v4, v5. auto 14.
    + intros (a & b & c & e & f & [= <-] & [= <-] & [= <-] & [= <-] & [= <-]
              & _ & _ & _ & _ & _ & ->). reflexivity.
  - apply py_all_false in Hall. simpl. split; [split|intros d; split].
    + intros _.
      inversion Hall as [? ? H|? ? Hall2]; subst; [auto|].
      inversion Hall2 as [? ? H|? ? Hall3]; subst; [auto|].
      inversion Hall3 as [? ? H|? ? Hall4]; subst; [auto|].
      inversion Hall4 as [? ? H|? ? Hall5]; subst; [auto|].
      inversion Hall5 as [? ? H|? ? Hall6]; subst; [auto 6|].
      inversion Hall6.
    + reflexivity.
    + discriminate.
    + intros (a & b & c & e & f & H1 & H2 & H3 & H4 & H5
              & N1 & N2 & N3 & N4 & N5 & _).
      rewrite H1, H2, H3, H4, H5 in Hall.
      repeat (inversion Hall as [? ? [H|H]|? ? Hall']; subst;
              [discriminate|congruence|clear Hall; rename Hall' into Hall]).
      inversion Hall.
Qed.

Lemma X5_openai_config_witness :
  result (get_openai_config environ_global) = Return None.
Proof.
  destruct (X5_openai_config environ_global) as [Hnone _].
  apply Hnone. left. left. reflexivity.
Defined.

(** X6.  [get_paths] returns [None] exactly when PATH_BOLETO is unset
    or empty, and otherwise the one-entry dictionary holding its value. *)
Theorem X6_paths (environ : gmap string string) :
  (result (get_paths environ) = Return None <->
   unset_or_empty environ "PATH_BOLETO") /\
  (forall d,
      result (get_paths environ) = Return (Some d) <->
      exists path_boleto,
        environ !! "PATH_BOLETO" = Some path_boleto /\ path_boleto <> "" /\
        d = <["path_boleto" := JStr path_boleto]> ∅).
Proof.
  unfold get_paths. rewrite unset_or_empty_truthy.
  destruct (truthy_opt_str (environ !! "PATH_BOLETO")) eqn:Hp;
    cbn [negb result snd bind emit ret].
  - apply truthy_opt_str_true in Hp as (v & Hv & Hne). rewrite Hv. simpl.
    split; [split; discriminate|intros d; split].
    + intros [= <-]. eauto.
    + intros (v' & [= <-] & _ & ->). reflexivity.
  - simpl. split; [split; reflexivity|intros d; split; [discriminate|]].
    intros (v & Hv & Hne & _). rewrite Hv, truthy_opt_str_Some in Hp by exact Hne.
    discriminate.
Qed.

Lemma X6_paths_witness :
  result (get_paths environ_global)
  = Return (Some (<["path_boleto" := JStr "/srv/boletos"]> ∅)).
Proof.
  destruct (X6_paths environ_global) as [_ Hfound].
  apply Hfound. exists "/srv/boletos". repeat split. discriminate.
Defined.

(** X7.  The variable names are built by joining the upper-cased
    locality and service with an underscore, so an underscore inside a
    name cannot be told from the separator: the pairs
    [(x_y, z)] and [(x, y_z)] resolve in the same way, for the API keys
    and for the e-mail account. *)
Theorem X7_name_collision (email_str_ok : string -> bool)
    (environ : gmap string string) (x y z : string) :
  get_app_keys environ (x +:+ "_" +:+ y) z
  = get_app_keys environ x (y +:+ "_" +:+ z) /\
  get_email_config email_str_ok environ (x +:+ "_" +:+ y) z
  = get_email_config email_str_ok environ x (y +:+ "_" +:+ z).
Proof.
  assert (Hname : forall suffix,
             upper (x +:+ "_" +:+ y) +:+ "_" +:+ upper z +:+ suffix
             = upper x +:+ "_" +:+ upper (y +:+ "_" +:+ z) +:+ suffix).
  { intros suffix. rewrite !upper_app. change (upper "_") with "_".
    now rewrite !string_app_assoc. }
  split.
  - unfold get_app_keys. rewrite !Hname.
    set (k := environ !! _). set (s := environ !! _).
    destruct (negb (truthy_opt_str k) || negb (truthy_opt_str s));
      [reflexivity|].
    unfold try_except_ValidationError, new_AppKeysConfig, bind, ret, raise, emit.
    destruct (field_min_length_1 "app_key" k ++ field_min_length_1 "app_secret" s)
      as [|f fs]; [destruct k, s|]; now rewrite ?Hname.
  - unfold get_email_config. rewrite !Hname.
    set (k := environ !! _). set (s := environ !! _).
    destruct (negb (truthy_opt_str k) || negb (truthy_opt_str s));
      [reflexivity|].
    unfold try_except_ValidationError, new_EmailConfig, bind, ret, raise, emit.
    destruct (field_EmailStr email_str_ok "email" k ++ field_min_length_1 "senha" s)
      as [|f fs]; [destruct k, s|]; now rewrite ?Hname.
Qed.

(** X8.  The fetch reads the environment only through the two
    variables of its locality and service: two environments that agree
    on them give the same events and the same result. *)
Theorem X8_fetch_reads_two_variables (server : Server)
    (localidade servico : string) (ano mes : Z)
    (environ environ' : gmap string string) (tentativas : Z) :
  environ !! (upper localidade +:+ "_" +:+ upper servico +:+ "_APP_KEY")
  = environ' !! (upper localidade +:+ "_" +:+ upper servico +:+ "_APP_KEY") ->
  environ !! (upper localidade +:+ "_" +:+ upper servico +:+ "_APP_SECRET")
  = environ' !! (upper localidade +:+ "_" +:+ upper servico +:+ "_APP_SECRET") ->
  listar_orcamentos server localidade servico ano mes environ tentativas
  = listar_orcamentos server localidade servico ano mes environ' tentativas.
Proof.
  intros Hk Hs.
  assert (Hkeys : get_app_keys environ localidade servico
                  = get_app_keys environ' localidade servico).
  { unfold get_app_keys. now rewrite Hk, Hs. }
  unfold listar_orcamentos. now rewrite Hkeys.
Qed.

Lemma X8_fetch_reads_two_variables_witness :
  listar_orcamentos server_busy_twice "pinheirinho" "cartao" 2024 5
    environ_pinheirinho 3
  = listar_orcamentos server_busy_twice "pinheirinho" "cartao" 2024 5
      (<["KEY1" := "other"]> environ_pinheirinho) 3.
Proof.
  apply (X8_fetch_reads_two_variables server_busy_twice "pinheirinho" "cartao"
           2024 5 environ_pinheirinho (<["KEY1" := "other"]> environ_pinheirinho) 3);
    reflexivity.
Defined.

(** ** The fetcher of teste.py *)

Lemma total_sleep_app (t1 t2 : list event) :
  total_sleep (t1 ++ t2) = total_sleep t1 + total_sleep t2.
Proof.
  induction t1 as [|ev t1 IH]; [reflexivity|].
  destruct ev; simpl; rewrite IH; lia.
Qed.

Lemma total_sleep_sleeps_and_posts (tr : list event) :
  total_sleep (sleeps_and_posts tr) = total_sleep tr.
Proof.
  induction tr as [|ev tr IH]; [reflexivity|].
  destruct ev; simpl; now rewrite ?IH.
Qed.

Lemma py_range_snoc (lo : Z) (n : nat) :
  py_range lo (lo + Z.of_nat (S n))
  = py_range lo (lo + Z.of_nat n) ++ [lo + Z.of_nat n].
Proof.
  unfold py_range.
  replace (Z.to_nat (lo + Z.of_nat (S n) - lo)) with (S n) by lia.
  replace (Z.to_nat (lo + Z.of_nat n - lo)) with n by lia.
  now rewrite seq_S, map_app.
Qed.

(** Sleeping [4 * t] seconds on attempts [1 .. n] takes [2 n (n + 1)]
    seconds. *)
Lemma total_sleep_attempts (u : string) (p : Payload) (n : nat) :
  total_sleep
    (flat_map (fun t => [Sleep (4 * t); Post u p])
       (py_range 1 (1 + Z.of_nat n)))
  = 2 * Z.of_nat n * (Z.of_nat n + 1).
Proof.
  induction n as [|n IH]; [reflexivity|].
  rewrite py_range_snoc, flat_map_app, total_sleep_app, IH.
  cbn [flat_map app total_sleep]. lia.
Qed.

Lemma set_column_not_empty (col : string) (v : json) (df : DataFrame) :
  df <> [] -> df_empty (set_column col v df) = false.
Proof.
  destruct df as [|row df]; [congruence|]. intros _. simpl.
  rewrite bool_decide_eq_false_2; [reflexivity|]. apply insert_non_empty.
Qed.

Lemma tagged_not_empty (localidade servico : string) (ano mes : Z)
    (df : DataFrame) :
  Forall (tagged localidade servico ano mes) df -> df <> [] ->
  df_empty df = false.
Proof.
  destruct df as [|row df]; [congruence|]. intros Htags _.
  apply Forall_inv in Htags. destruct Htags as [Hano _]. simpl.
  rewrite bool_decide_eq_false_2; [reflexivity|].
  intros ->. rewrite lookup_empty in Hano. discriminate.
Qed.

Section FetchFacts.

Variable server : Server.
Variables localidade servico : string.
Variables ano mes : Z.
Variable environ : gmap string string.
Variable tentativas : Z.

Local Abbreviation run :=
  (listar_orcamentos server localidade servico ano mes environ tentativas).

(** Every row of a returned table is tagged. *)
Lemma fetched_rows_tagged (df : DataFrame) :
  result run = Return df -> Forall (tagged localidade servico ano mes) df.
Proof.
  intros Hres.
  destruct (get_app_keys_result localidade servico environ)
    as [Hnone|[keys Hkeys]].
  - destruct (listar_unresolved server localidade servico ano mes environ
                tentativas Hnone) as [msg Hrun].
    rewrite Hrun in Hres. injection Hres as <-. constructor.
  - rewrite (listar_resolved _ _ _ _ _ _ _ keys Hkeys) in Hres.
    apply for_each_result in Hres as [Hafter|(v & _ & Hv)].
    + injection Hafter as <-. constructor.
    + now apply attempt_tagged in Hv.
Qed.

(** An attempt that took place and raised: the exception leaves the
    fetch right after the request, nothing is shown. *)
Lemma attempt_made_raises (n : Z) (e : exn) :
  1 <= n -> attempt_made (trace run) n ->
  (forall p,
      tentativa_body server localidade servico ano mes p n
      = ([Sleep (4 * n); Post url p], Raise e)) ->
  result run = Raise e /\
  count_posts (trace run) = Z.to_nat n /\
  no_error (trace run) /\
  exists p, last (trace run) = Some (Post url p).
Proof.
  intros Hn Hmade Hraise.
  destruct (attempt_made_resolved _ _ _ _ _ _ _ n Hn Hmade)
    as (keys & Hkeys & Hle).
  destruct (attempt_made_prefix _ _ _ _ _ _ _ keys n Hkeys (conj Hn Hle) Hmade)
    as (_ & _ & Hpre).
  rewrite (listar_raises_at server localidade servico ano mes environ
             tentativas keys Hkeys n e (conj Hn Hle) Hpre
             ltac:(rewrite Hraise; reflexivity)).
  rewrite Hraise. cbn [trace result fst snd].
  split; [reflexivity|]. split; [|split].
  - rewrite count_posts_app.
    rewrite (count_posts_prefix server localidade servico ano mes keys n).
    change (count_posts _) with 1%nat. lia.
  - apply no_error_app. split.
    + now apply (traces_of_no_error server localidade servico ano mes keys).
    + repeat constructor.
  - exists (payload ano mes keys).
    change [Sleep (4 * n); Post url (payload ano mes keys)]
      with ([Sleep (4 * n)] ++ [Post url (payload ano mes keys)]).
    rewrite app_assoc. apply last_snoc.
Qed.

End FetchFacts.



(** X10.  With credentials and a maximum of zero or fewer attempts the
    loop body never runs: the only thing the fetch does is to show the
    attempts-exceeded error, and it returns the empty table. *)
Theorem X10_no_attempt_allowed (server : Server)
    (localidade servico : string) (ano mes : Z)
    (environ : gmap string string) (tentativas : Z) (keys : AppKeysConfig) :
  result (get_app_keys environ localidade servico) = Return (Some keys) ->
  tentativas <= 0 ->
  listar_orcamentos server localidade servico ano mes environ tentativas
  = ([exceeded_error localidade servico], Return empty_DataFrame).
Proof.
  intros Hkeys Hle. rewrite (listar_resolved _ _ _ _ _ _ _ keys Hkeys).
  unfold py_range. replace (Z.to_nat (tentativas + 1 - 1)) with 0%nat by lia.
  reflexivity.
Qed.

Lemma X10_no_attempt_allowed_witness :
  listar_orcamentos server_busy_twice "pinheirinho" "cartao" 2024 5
    environ_pinheirinho 0
  = ([exceeded_error "pinheirinho" "cartao"], Return empty_DataFrame).
Proof.
  apply (X10_no_attempt_allowed server_busy_twice "pinheirinho" "cartao" 2024 5
           environ_pinheirinho 0 {| app_key := "k123"; app_secret := "s456" |}).
  - vm_compute. reflexivity.
  - lia.
Defined.

(** X11.  An exception raised by [requests.post] is not caught: if
    attempt number [n] took place and the request raised, the fetch
    raises the same exception, request [n] is its last event, no error
    is shown and no further attempt is made. *)
Theorem X11_transport_exception_escapes (server : Server)
    (localidade servico : string) (ano mes : Z)
    (environ : gmap string string) (tentativas : Z) (n : Z) (e : exn) :
  1 <= n ->
  attempt_made
    (trace (listar_orcamentos server localidade servico ano mes environ
              tentativas)) n ->
  server n = Raise e ->
  result (listar_orcamentos server localidade servico ano mes environ tentativas)
  = Raise e /\
  count_posts
    (trace (listar_orcamentos server localidade servico ano mes environ
              tentativas)) = Z.to_nat n /\
  no_error
    (trace (listar_orcamentos server localidade servico ano mes environ
              tentativas)) /\
  exists p,
    last (trace (listar_orcamentos server localidade servico ano mes environ
                   tentativas)) = Some (Post url p).
Proof.
  intros Hn Hmade Hs. apply attempt_made_raises; [exact Hn|exact Hmade|].
  intros p. now apply attempt_transport.
Qed.

Lemma X11_transport_exception_escapes_witness :
  result (listar_orcamentos server_drops "pinheirinho" "cartao" 2024 5
            environ_pinheirinho 3) = Raise RequestException /\
  count_posts
    (trace (listar_orcamentos server_drops "pinheirinho" "cartao" 2024 5
              environ_pinheirinho 3)) = Z.to_nat 2.
Proof.
  destruct (X11_transport_exception_escapes server_drops "pinheirinho" "cartao"
              2024 5 environ_pinheirinho 3 2 RequestException)
    as (Hres & Hposts & _ & _).
  - lia.
  - vm_compute. lia.
  - reflexivity.
  - split; assumption.
Defined.

(** X12.  A status-200 response whose body is not JSON is not handled:
    if attempt number [n] took place and received one, the fetch raises
    [JSONDecodeError] right after request [n], without showing an error
    and without a further attempt. *)
Theorem X12_invalid_json_escapes (server : Server)
    (localidade servico : string) (ano mes : Z)
    (environ : gmap string string) (tentativas : Z) (n : Z) (r : Response) :
  1 <= n ->
  attempt_made
    (trace (listar_orcamentos server localidade servico ano mes environ
              tentativas)) n ->
  server n = Return r -> status_code r = 200 -> body r = None ->
  result (listar_orcamentos server localidade servico ano mes environ tentativas)
  = Raise JSONDecodeError /\
  count_posts
    (trace (listar_orcamentos server localidade servico ano mes environ
              tentativas)) = Z.to_nat n /\
  no_error
    (trace (listar_orcamentos server localidade servico ano mes environ
              tentativas)).
Proof.
  intros Hn Hmade Hs H200 Hb.
  destruct (attempt_made_raises server localidade servico ano mes environ
              tentativas n JSONDecodeError Hn Hmade) as (H1 & H2 & H3 & _);
    [|auto].
  intros p. now apply attempt_not_json with (r := r).
Qed.

Lemma X12_invalid_json_escapes_witness :
  result (listar_orcamentos (fun _ => Return not_json) "pinheirinho" "cartao"
            2024 5 environ_pinheirinho 3) = Raise JSONDecodeError.
Proof.
  apply (X12_invalid_json_escapes (fun _ => Return not_json)
           "pinheirinho" "cartao" 2024 5 environ_pinheirinho 3 1 not_json).
  - lia.
  - vm_compute. lia.
  - reflexivity.
  - reflexivity.
  - reflexivity.
Defined.

(** X13.  The busy test assumes that [faultcode] is a string or a
    container: if attempt number [n] took place and received a
    status-200 object whose [faultcode] is a number, a boolean or
    [null], the fetch raises [TypeError] right after request [n],
    without showing an error and without a further attempt. *)
Theorem X13_faultcode_not_iterable (server : Server)
    (localidade servico : string) (ano mes : Z)
    (environ : gmap string string) (tentativas : Z) (n : Z) (r : Response)
    (fields : list (string * json)) (code : json) :
  1 <= n ->
  attempt_made
    (trace (listar_orcamentos server localidade servico ano mes environ
              tentativas)) n ->
  server n = Return r -> status_code r = 200 ->
  body r = Some (JObj fields) ->
  dict_get "faultcode" fields = Some code -> not_iterable code = true ->
  result (listar_orcamentos server localidade servico ano mes environ tentativas)
  = Raise TypeError /\
  count_posts
    (trace (listar_orcamentos server localidade servico ano mes environ
              tentativas)) = Z.to_nat n /\
  no_error
    (trace (listar_orcamentos server localidade servico ano mes environ
              tentativas)).
Proof.
  intros Hn Hmade Hs H200 Hb Hcode Hni.
  assert (Hfault : has_fault_8020 (JObj fields) = Raise TypeError).
  { unfold has_fault_8020. simpl. rewrite Hcode. simpl.
    destruct code; try discriminate; reflexivity. }
  destruct (attempt_made_raises server localidade servico ano mes environ
              tentativas n TypeError Hn Hmade) as (H1 & H2 & H3 & _);
    [|auto].
  intros p. now apply attempt_fault_raises with (r := r) (dados := JObj fields).
Qed.

Lemma X13_faultcode_not_iterable_witness :
  result (listar_orcamentos (fun _ => Return numeric_fault) "pinheirinho"
            "cartao" 2024 5 environ_pinheirinho 3) = Raise TypeError.
Proof.
  apply (X13_faultcode_not_iterable (fun _ => Return numeric_fault)
           "pinheirinho" "cartao" 2024 5 environ_pinheirinho 3 1 numeric_fault
           [("faultcode", JInt 8020)] (JInt 8020)).
  - lia.
  - vm_compute. lia.
  - reflexivity.
  - reflexivity.
  - reflexivity.
  - reflexivity.
  - reflexivity.
Defined.

(** X14.  Every request of a fetch goes to the one fixed address and
    carries the call name, the queried year and month, and the key and
    secret found in the environment under the upper-cased names. *)
Theorem X14_requests_carry_credentials (server : Server)
    (localidade servico : string) (ano mes : Z)
    (environ : gmap string string) (tentativas : Z)
    (u : string) (p : Payload) :
  In (Post u p)
     (trace (listar_orcamentos server localidade servico ano mes environ
               tentativas)) ->
  u = "https://app.omie.com.br/api/v1/financas/caixa/" /\
  call p = "ListarOrcamentos" /\ nAno p = ano /\ nMes p = mes /\
  environ !! (upper localidade +:+ "_" +:+ upper servico +:+ "_APP_KEY")
  = Some (app_key_sent p) /\
  environ !! (upper localidade +:+ "_" +:+ upper servico +:+ "_APP_SECRET")
  = Some (app_secret_sent p).
Proof.
  intros Hin.
  destruct (get_app_keys_cases environ localidade servico)
    as [(msg & Hg & _)|(k & s & Hk & Hs & _ & _ & Hg)].
  - assert (Hnone : result (get_app_keys environ localidade servico)
                    = Return None) by now rewrite Hg.
    destruct (listar_unresolved server localidade servico ano mes environ
                tentativas Hnone) as [m Hrun].
    rewrite Hrun in Hin. simpl in Hin.
    destruct Hin as [Hin|[Hin|[]]]; discriminate.
  - assert (Hkeys : result (get_app_keys environ localidade servico)
                    = Return (Some (mkAppKeysConfig k s))) by now rewrite Hg.
    rewrite (listar_resolved _ _ _ _ _ _ _ _ Hkeys) in Hin.
    set (attempt := tentativa_body server localidade servico ano mes
                      (payload ano mes (mkAppKeysConfig k s))) in Hin.
    set (after := st_error _ >> ret empty_DataFrame) in Hin.
    assert (Hsp : In (Post u p)
              (sleeps_and_posts
                 (trace (for_each attempt after (py_range 1 (tentativas + 1)))))).
    { unfold sleeps_and_posts. apply filter_In. split; [exact Hin|reflexivity]. }
    rewrite (for_each_sleeps_and_posts attempt after
               (attempt_one_post server localidade servico ano mes
                  (payload ano mes (mkAppKeysConfig k s)))
               (fun t => [Sleep (4 * t);
                          Post url (payload ano mes (mkAppKeysConfig k s))])
               (attempt_sleeps_and_posts server localidade servico ano mes
                  (payload ano mes (mkAppKeysConfig k s)))
               eq_refl) in Hsp.
    apply List.in_flat_map in Hsp as (t & _ & Ht).
    destruct Ht as [Ht|[Ht|[]]]; [discriminate|].
    injection Ht as <- <-. simpl. auto 6.
Qed.

Lemma X14_requests_carry_credentials_witness :
  app_key_sent (payload 2024 5 {| app_key := "k123"; app_secret := "s456" |})
  = "k123" /\
  environ_pinheirinho !! "PINHEIRINHO_CARTAO_APP_SECRET" = Some "s456".
Proof.
  destruct (X14_requests_carry_credentials server_not_found "pinheirinho"
              "cartao" 2024 5 environ_pinheirinho 3 url
              (payload 2024 5 {| app_key := "k123"; app_secret := "s456" |}))
    as (_ & _ & _ & _ & _ & Hsecret).
  - vm_compute. right. left. reflexivity.
  - split; [reflexivity|exact Hsecret].
Defined.

(** X15.  A fetch that makes [k] attempts sleeps [2 k (k + 1)] seconds
    in all; with a maximum of [tentativas >= 0] attempts this is at most
    [2 tentativas (tentativas + 1)] seconds, 24 seconds for the default
    of 3. *)
Theorem X15_total_sleep (server : Server)
    (localidade servico : string) (ano mes : Z)
    (environ : gmap string string) (tentativas : Z) :
  total_sleep
    (trace (listar_orcamentos server localidade servico ano mes environ
              tentativas))
  = 2 * Z.of_nat
          (count_posts
             (trace (listar_orcamentos server localidade servico ano mes
                       environ tentativas)))
      * (Z.of_nat
           (count_posts
              (trace (listar_orcamentos server localidade servico ano mes
                        environ tentativas))) + 1) /\
  (0 <= tentativas ->
   total_sleep
     (trace (listar_orcamentos server localidade servico ano mes environ
               tentativas))
   <= 2 * tentativas * (tentativas + 1)).
Proof.
  assert (Hboth :
    total_sleep
      (trace (listar_orcamentos server localidade servico ano mes environ
                tentativas))
    = 2 * Z.of_nat
            (count_posts
               (trace (listar_orcamentos server localidade servico ano mes
                         environ tentativas)))
        * (Z.of_nat
             (count_posts
                (trace (listar_orcamentos server localidade servico ano mes
                          environ tentativas))) + 1) /\
    (count_posts
       (trace (listar_orcamentos server localidade servico ano mes environ
                 tentativas)) <= Z.to_nat tentativas)%nat).
  { destruct (get_app_keys_result localidade servico environ)
      as [Hnone|[keys Hkeys]].
    - destruct (listar_unresolved server localidade servico ano mes environ
                  tentativas Hnone) as [msg Hrun].
      rewrite Hrun. cbn. split; [reflexivity|lia].
    - rewrite (listar_resolved _ _ _ _ _ _ _ keys Hkeys).
      set (attempt := tentativa_body server localidade servico ano mes
                        (payload ano mes keys)).
      set (after := st_error _ >> ret empty_DataFrame).
      assert (Hle : (count_posts
                       (trace (for_each attempt after
                                 (py_range 1 (tentativas + 1))))
                     <= Z.to_nat tentativas)%nat).
      { pose proof (for_each_count_posts_le attempt after
                      (attempt_one_post server localidade servico ano mes
                         (payload ano mes keys))
                      (py_range 1 (tentativas + 1))) as H.
        rewrite py_range_length in H.
        change (count_posts (trace after)) with 0%nat in H. lia. }
      split; [|exact Hle].
      rewrite <- total_sleep_sleeps_and_posts.
      rewrite (for_each_sleeps_and_posts attempt after
                 (attempt_one_post server localidade servico ano mes
                    (payload ano mes keys))
                 (fun t => [Sleep (4 * t); Post url (payload ano mes keys)])
                 (attempt_sleeps_and_posts server localidade servico ano mes
                    (payload ano mes keys))
                 eq_refl).
      rewrite py_range_take by lia.
      apply total_sleep_attempts. }
  destruct Hboth as [Heq Hle]. split; [exact Heq|].
  intros Hpos. rewrite Heq. nia.
Qed.

Lemma X15_total_sleep_witness :
  total_sleep
    (trace (listar_orcamentos server_always_busy "pinheirinho" "cartao" 2024 5
              environ_pinheirinho tentativas_default)) <= 24.
Proof.
  destruct (X15_total_sleep server_always_busy "pinheirinho" "cartao" 2024 5
              environ_pinheirinho tentativas_default) as [_ Hbound].
  apply Hbound. unfold tentativas_default. lia.
Defined.

(** X16.  If attempt number [n] took place and received a status-200
    object without the busy fault whose result list is not empty, the
    fetch returns a table with one row for each entry of the list, in
    which every row is tagged; it shows no error and request [n] is the
    last one. *)
Theorem X16_one_row_per_entry (server : Server)
    (localidade servico : string) (ano mes : Z)
    (environ : gmap string string) (tentativas : Z)
    (n : Z) (r : Response) (fields : list (string * json))
    (items : list json) :
  1 <= n ->
  attempt_made
    (trace (listar_orcamentos server localidade servico ano mes environ
              tentativas)) n ->
  server n = Return r -> status_code r = 200 ->
  body r = Some (JObj fields) ->
  has_fault_8020 (JObj fields) = Return false ->
  dict_get "ListaOrcamentos" fields = Some (JArr items) ->
  items <> [] ->
  exists df,
    result (listar_orcamentos server localidade servico ano mes environ
              tentativas) = Return df /\
    df_len df = length items /\
    df_empty df = false /\
    Forall (tagged localidade servico ano mes) df /\
    no_error
      (trace (listar_orcamentos server localidade servico ano mes environ
                tentativas)) /\
    count_posts
      (trace (listar_orcamentos server localidade servico ano mes environ
                tentativas)) = Z.to_nat n.
Proof.
  intros Hn Hmade Hs H200 Hbody Hfault Hlist Hitems.
  destruct (attempt_made_resolved _ _ _ _ _ _ _ n Hn Hmade)
    as (keys & Hkeys & Hle).
  destruct (attempt_made_prefix _ _ _ _ _ _ _ keys n Hkeys (conj Hn Hle) Hmade)
    as (_ & _ & Hpre).
  assert (Hget : py_get (JObj fields) "ListaOrcamentos" (JArr [])
                 = Return (JArr items)).
  { unfold py_get. now rewrite Hlist. }
  pose proof (attempt_success server localidade servico ano mes
                (payload ano mes keys) n r _ _ Hs H200 Hbody Hfault Hget)
    as Hrows.
  assert (Htruthy : truthy (JArr items) = true)
    by (destruct items; [congruence|reflexivity]).
  rewrite Htruthy in Hrows. cbn [json_normalize] in Hrows.
  eexists.
  rewrite (listar_stops_at server localidade servico ano mes environ
             tentativas keys Hkeys n _ (conj Hn Hle) Hpre
             ltac:(rewrite Hrows; reflexivity)).
  rewrite Hrows. cbn [trace result fst snd].
  split; [reflexivity|]. split; [|split; [|split; [|split]]].
  - unfold df_len, set_column. now rewrite !length_map.
  - apply set_column_not_empty.
    destruct items; [congruence|discriminate].
  - apply tags_attached.
  - apply no_error_app. split.
    + now apply (traces_of_no_error server localidade servico ano mes keys).
    + repeat constructor.
  - rewrite count_posts_app.
    rewrite (count_posts_prefix server localidade servico ano mes keys n).
    change (count_posts _) with 1%nat. lia.
Qed.

Lemma X16_one_row_per_entry_witness :
  exists df,
    result (listar_orcamentos (fun _ => Return two_entries) "pinheirinho"
              "cartao" 2024 5 environ_pinheirinho 3) = Return df /\
    df_len df = 2%nat.
Proof.
  destruct (X16_one_row_per_entry (fun _ => Return two_entries) "pinheirinho"
              "cartao" 2024 5 environ_pinheirinho 3 1 two_entries
              [("ListaOrcamentos",
                JArr [JObj [("cDesCateg", JStr "Receitas")];
                      JObj [("cDesCateg", JStr "Despesas")]])]
              [JObj [("cDesCateg", JStr "Receitas")];
               JObj [("cDesCateg", JStr "Despesas")]])
    as (df & Hres & Hlen & _).
  - lia.
  - vm_compute. lia.
  - reflexivity.
  - reflexivity.
  - reflexivity.
  - reflexivity.
  - reflexivity.
  - discriminate.
  - exists df. split; assumption.
Defined.

(** X17.  A fetch shows at most one error banner and logs no error: the
    banner, if any, is the last event of the fetch, and the table
    returned is then empty.  So a fetch that returns rows has shown no
    error, and a fetch that raises has shown none either. *)
Theorem X17_error_is_last (server : Server)
    (localidade servico : string) (ano mes : Z)
    (environ : gmap string string) (tentativas : Z) :
  error_at_end empty_DataFrame
    (listar_orcamentos server localidade servico ano mes environ tentativas) /\
  (forall df,
      result (listar_orcamentos server localidade servico ano mes environ
                tentativas) = Return df ->
      df <> [] ->
      no_error
        (trace (listar_orcamentos server localidade servico ano mes environ
                  tentativas))) /\
  (forall e,
      result (listar_orcamentos server localidade servico ano mes environ
                tentativas) = Raise e ->
      no_error
        (trace (listar_orcamentos server localidade servico ano mes environ
                  tentativas))).
Proof.
  assert (Hend : error_at_end empty_DataFrame
            (listar_orcamentos server localidade servico ano mes environ
               tentativas)).
  { destruct (get_app_keys_result localidade servico environ)
      as [Hnone|[keys Hkeys]].
    - destruct (listar_unresolved server localidade servico ano mes environ
                  tentativas Hnone) as [msg Hrun].
      rewrite Hrun. exists [LogWarning msg]. eexists [_].
      split; [reflexivity|]. split; [repeat constructor|].
      right. eexists. split; reflexivity.
    - rewrite (listar_resolved _ _ _ _ _ _ _ keys Hkeys).
      apply for_each_error_at_end.
      + apply attempt_continues_trace.
      + apply attempt_error_at_end.
      + exists []. eexists [_].
        split; [reflexivity|]. split; [constructor|].
        right. eexists. split; reflexivity. }
  split; [exact Hend|].
  destruct Hend as (quiet & tail & Htr & Hquiet & Htail).
  split.
  - intros df Hres Hne. rewrite Htr.
    destruct Htail as [->|(msg & _ & Hempty)].
    + now rewrite app_nil_r.
    + rewrite Hres in Hempty. injection Hempty as ->.
      exfalso. apply Hne. reflexivity.
  - intros e Hres. rewrite Htr.
    destruct Htail as [->|(msg & _ & Hempty)].
    + now rewrite app_nil_r.
    + rewrite Hres in Hempty. discriminate.
Qed.

Lemma X17_error_is_last_witness :
  no_error
    (trace (listar_orcamentos server_drops "pinheirinho" "cartao" 2024 5
              environ_pinheirinho 3)).
Proof.
  destruct (X17_error_is_last server_drops "pinheirinho" "cartao" 2024 5
              environ_pinheirinho 3) as (_ & _ & Hraise).
  apply (Hraise RequestException). vm_compute. reflexivity.
Defined.

(** ** The button of teste.py *)

(** X18.  What pressing [Buscar dados] does, whatever the chart branch
    is: an exception of the fetch leaves the script at once; a fetch
    that returns no row is followed by a sleep of one second and the
    no-data warning, the chart branch not being run; a fetch that
    returns rows is followed by the sleep of one second and the chart
    branch, never by the no-data warning. *)
Theorem X18_buscar_dados (grafico : DataFrame -> M unit)
    (server : Server) (environ : gmap string string)
    (localidade servico : string) (ano mes : Z) :
  (forall e,
      result (listar_orcamentos server localidade servico ano mes environ
                tentativas_default) = Raise e ->
      buscar_dados grafico server environ localidade servico ano mes
      = (trace (listar_orcamentos server localidade servico ano mes environ
                  tentativas_default),
         Raise e)) /\
  (result (listar_orcamentos server localidade servico ano mes environ
             tentativas_default) = Return [] ->
   buscar_dados grafico server environ localidade servico ano mes
   = (trace (listar_orcamentos server localidade servico ano mes environ
               tentativas_default)
      ++ [Sleep 1; StWarning "Nenhum dado retornado para o filtro selecionado."],
      Return tt)) /\
  (forall df,
      result (listar_orcamentos server localidade servico ano mes environ
                tentativas_default) = Return df ->
      df <> [] ->
      buscar_dados grafico server environ localidade servico ano mes
      = (trace (listar_orcamentos server localidade servico ano mes environ
                  tentativas_default)
         ++ Sleep 1 :: trace (grafico df),
         result (grafico df))).
Proof.
  unfold buscar_dados.
  set (fetch := listar_orcamentos server localidade servico ano mes environ
                  tentativas_default).
  split; [|split].
  - intros e Hres. rewrite (M_eta fetch), Hres. reflexivity.
  - intros Hres. rewrite (M_eta fetch), Hres. reflexivity.
  - intros df Hres Hne.
    assert (Hempty : df_empty df = false).
    { apply (tagged_not_empty localidade servico ano mes); [|exact Hne].
      now apply (fetched_rows_tagged server localidade servico ano mes environ
                   tentativas_default). }
    rewrite (M_eta fetch) at 1. rewrite Hres.
    unfold bind, time_sleep, emit. rewrite Hempty.
    cbn [trace result fst snd]. now destruct (grafico df).
Qed.

Lemma X18_buscar_dados_witness :
  buscar_dados (fun _ => ret tt) server_not_found environ_pinheirinho
    "pinheirinho" "cartao" 2024 5
  = (trace (listar_orcamentos server_not_found "pinheirinho" "cartao" 2024 5
              environ_pinheirinho tentativas_default)
     ++ [Sleep 1; StWarning "Nenhum dado retornado para o filtro selecionado."],
     Return tt).
Proof.
  destruct (X18_buscar_dados (fun _ => ret tt) server_not_found
              environ_pinheirinho "pinheirinho" "cartao" 2024 5)
    as (_ & Hempty & _).
  apply Hempty. vm_compute. reflexivity.
Defined.
